(** * EPICS frontend for the TRIUMF UCN experiment: a model of [epics_fe.cxx]

    The frontend connects a configured set of EPICS channels at start-up,
    polls them from the frontend loop, mirrors the latest readings in the
    online database (ODB) under [/Equipment/EPICS/Variables/Measured], and
    packs them into a MIDAS bank on request.

    The model is a shallow embedding.  The process state (the global
    [beamline] structure, the static [last_time_measured], the ODB subtree
    the frontend touches and the log of calls made to MIDAS and to Channel
    Access) is an explicit record; every function of the source is a
    function in a state-and-failure monad; what the outside world answers
    (Channel Access replies, the millisecond clock) is an explicit argument.
    [printf] diagnostics and the computation of the program start command
    in [frontend_init] are left out: they touch neither the channels nor the
    measured values. *)

From Stdlib Require Import ZArith String Bool Lia.
From stdpp Require Import base numbers list.

Local Open Scope string_scope.
Local Open Scope list_scope.
Local Open Scope Z_scope.

(** ** Values

    A [float] is kept as its 32-bit pattern: the frontend only moves floats
    around, it never computes with them. *)

Record float : Type := Float { float_bits : Z }.

(** A [chid] is an opaque, non-null Channel Access handle. *)
Definition chid : Type := positive.

Record bank : Type := Bank {
  bank_name : string;
  bank_type : Z;
  bank_data : list Z
}.

(** ** What the headers provide

    [midas.h], [cadef.h] and [caerr.h] are not part of this source tree.
    The status codes the frontend compares against, the bank type id, the
    effect of the [SEVCHK] macro and the size MIDAS reports for an event
    are therefore parameters of the development. *)

Class Headers : Type := {
  FE_SUCCESS : Z;
  FE_ERR_HW : Z;
  CM_SUCCESS : Z;
  CA_M_SUCCESS : Z;
  ECA_TIMEOUT : Z;
  TID_FLOAT : Z;
  (** [SEVCHK_aborts s] tells whether [SEVCHK(s, ...)] ends the process. *)
  SEVCHK_aborts : Z -> bool;
  (** [bk_size] of an event made of the given banks. *)
  bk_size : list bank -> Z
}.

(** timeout in seconds for caget operations *)
Definition CAGET_TIMEOUT : Z := 30.

Definition float_zero : float := Float 0.

(** The four bytes of a [float] in memory, least significant first. *)
Definition float_bytes (f : float) : list Z :=
  let b := float_bits f in
  [Z.land b 255;
   Z.land (Z.shiftr b 8) 255;
   Z.land (Z.shiftr b 16) 255;
   Z.land (Z.shiftr b 24) 255].

(** ** State

    The part of the ODB the frontend reads and writes.  A key that does not
    exist is [None]. *)
Record ODB : Type := mkODB {
  odb_update_interval : option Z;          (* Settings/Update interval *)
  odb_names : option (list string);        (* Settings/Names *)
  odb_ca_name : option (list string);      (* Settings/CA Name *)
  odb_enabled : option (list bool);        (* Settings/Enabled *)
  odb_measured : option (list float)       (* Variables/Measured *)
}.

(** The fields of the global [beamline] structure that the code uses.
    A null [chid] is [None]. *)
Record beamline_t : Type := mkBeamline {
  beamline_length : nat;
  beamline_measured : list (option chid);
  beamline_updateInterval : Z
}.

(** Calls that leave the process, in the order they are made. *)
Inductive event : Type :=
| cm_msg (routine message : string)            (* cm_msg(MERROR, routine, message) *)
| ca_task_initialize
| ca_create_channel (channel : nat) (name : string)
| ca_get (h : chid)
| ca_pend_io (seconds : Z)
| ss_sleep (ms : Z).

Record State : Type := mkState {
  beamline : beamline_t;
  odb : ODB;
  last_time_measured : Z;                  (* static DWORD in epics_loop *)
  log : list event
}.

(** Ways the process can end inside a call instead of returning from it. *)
Inductive fault : Type :=
| odb_exception        (* the ODB binding throws: missing key, index out of range *)
| ca_signal_abort      (* SEVCHK ends the process *)
| bad_pointer.         (* indexing beamline.measured outside the array *)

Inductive result (A : Type) : Type :=
| Ok (a : A) (st : State)
| Crash (why : fault).
Arguments Ok {A} a st.
Arguments Crash {A} why.

Definition M (A : Type) : Type := State -> result A.

Definition ret {A} (a : A) : M A := fun st => Ok a st.

Definition bind {A B} (m : M A) (k : A -> M B) : M B :=
  fun st => match m st with
            | Ok a st' => k a st'
            | Crash w => Crash w
            end.

Definition throw {A} (w : fault) : M A := fun _ => Crash w.

Notation "'do' x <- m ; k" := (bind m (fun x => k))
  (at level 10, x name, m at level 100, k at level 200).
Notation "'run' m ; k" := (bind m (fun _ => k))
  (at level 10, m at level 100, k at level 200).

Definition gets {A} (f : State -> A) : M A := fun st => Ok (f st) st.

Definition modify (f : State -> State) : M unit := fun st => Ok tt (f st).

Definition lift_option {A} (w : fault) (o : option A) : M A :=
  match o with
  | Some a => ret a
  | None => throw w
  end.

(** *** State updates *)

Definition set_beamline (f : beamline_t -> beamline_t) (st : State) : State :=
  mkState (f (beamline st)) (odb st) (last_time_measured st) (log st).

Definition set_odb (f : ODB -> ODB) (st : State) : State :=
  mkState (beamline st) (f (odb st)) (last_time_measured st) (log st).

Definition set_last_time_measured (t : Z) (st : State) : State :=
  mkState (beamline st) (odb st) t (log st).

Definition add_log (evs : list event) (st : State) : State :=
  mkState (beamline st) (odb st) (last_time_measured st) (log st ++ evs).

Definition set_handles (hs : list (option chid)) (b : beamline_t)
  : beamline_t :=
  mkBeamline (beamline_length b) hs (beamline_updateInterval b).

Definition set_measured_chid (i : nat) (h : option chid) (b : beamline_t)
  : beamline_t :=
  set_handles (<[i := h]> (beamline_measured b)) b.

Definition set_odb_measured (m : option (list float)) (o : ODB) : ODB :=
  mkODB (odb_update_interval o) (odb_names o) (odb_ca_name o)
        (odb_enabled o) m.

Definition set_odb_enabled (e : option (list bool)) (o : ODB) : ODB :=
  mkODB (odb_update_interval o) (odb_names o) (odb_ca_name o) e
        (odb_measured o).

Definition set_odb_names (n : option (list string)) (o : ODB) : ODB :=
  mkODB (odb_update_interval o) n (odb_ca_name o) (odb_enabled o)
        (odb_measured o).

(** Replaces the two settings that only initialisation reads. *)
Definition set_odb_connection (interval : option Z)
    (ca_name : option (list string)) (o : ODB) : ODB :=
  mkODB interval (odb_names o) ca_name (odb_enabled o) (odb_measured o).

Definition on_state {A} (f : State -> State) (r : result A) : result A :=
  match r with
  | Ok a st => Ok a (f st)
  | Crash w => Crash w
  end.

Definition emit (e : event) : M unit := modify (add_log [e]).

(** *** ODB access

    Reading element [i] of an array key throws when the key is missing or
    the index is outside the array. *)

Definition odb_lookup {A} (key : ODB -> option (list A)) (i : nat) (o : ODB)
  : option A :=
  match key o with
  | Some l => l !! i
  | None => None
  end.

Definition odb_index {A} (key : ODB -> option (list A)) (i : nat) : M A :=
  do o <- gets odb;
  lift_option odb_exception (odb_lookup key i o).

(** [beamline.variables["Measured"][channel] = f] *)
Definition odb_write_measured (channel : nat) (f : float) : M unit :=
  do o <- gets odb;
  match odb_measured o with
  | Some m =>
      if decide (channel < length m)%nat
      then modify (set_odb (set_odb_measured (Some (<[channel := f]> m))))
      else throw odb_exception
  | None => throw odb_exception
  end.

(** ** What the outside world answers *)

(** Answer to one [ca_create_channel] followed by [ca_pend_io(5.0)]:
    the status of the first call, the handle it leaves in
    [beamline.measured[i]], and the status of the second. *)
Record connect_reply : Type := mkConnectReply {
  cr_status : Z;
  cr_chid : option chid;
  cr_pend : Z
}.

(** Answer to one [ca_get] followed by [ca_pend_io(CAGET_TIMEOUT)]: the two
    statuses and the content of the local [f] afterwards. *)
Record get_reply : Type := mkGetReply {
  gr_status : Z;
  gr_pend : Z;
  gr_value : float
}.

Record init_env : Type := mkInitEnv {
  ie_task_status : Z;                      (* ca_task_initialize() *)
  ie_connect : nat -> connect_reply        (* per channel *)
}.

(** One call of the frontend loop: what other ODB clients changed since the
    previous call, the time at which the loop looks at the clock, the
    answers of the channels, and the time at the end of the sweep.  Times
    are milliseconds on an unbounded scale. *)
Record tick : Type := mkTick {
  tk_odb : ODB -> ODB;
  tk_start : Z;
  tk_replies : nat -> get_reply;
  tk_end : Z
}.

(** [ss_millitime()] returns a [DWORD]: the time modulo [2^32]. *)
Definition DWORD (z : Z) : Z := z mod 2 ^ 32.

Definition ss_millitime (time : Z) : Z := DWORD time.

(** The process image at start-up: globals and statics are zero. *)
Definition initial_state (o : ODB) : State :=
  mkState (mkBeamline 0 [] 0) o 0 [].

(** ** The frontend *)

Section Frontend.

Context `{Headers}.

Definition SEVCHK (status : Z) : M unit :=
  if SEVCHK_aborts status then throw ca_signal_abort else ret tt.

(** *** Readout routine *)

(** [for (i ...) *pdata++ = beamline.variables["Measured"][i];]
    [pdata] is the sequence of floats written so far. *)
Fixpoint epics_read_loop (idx : list nat) (pdata : list float)
  : M (list float) :=
  match idx with
  | [] => ret pdata
  | i :: rest =>
      do v <- odb_index odb_measured i;
      epics_read_loop rest (pdata ++ [v])
  end.

(** Returns the event built in [pevent] and the value of [bk_size]. *)
Definition epics_read : M (list bank * Z) :=
  do n <- gets (fun st => beamline_length (beamline st));
  do pdata <- epics_read_loop (seq 0 n) [];
  let pevent := [Bank "E000" TID_FLOAT (flat_map float_bytes pdata)] in
  ret (pevent, bk_size pevent).

(** *** Initialisation *)

(** Default values for settings: [settings.connect] creates the keys that
    are missing with these values and loads the others. *)
Definition connect_settings (o : ODB) : ODB :=
  mkODB (Some (default 10 (odb_update_interval o)))
        (Some (default (replicate 5 EmptyString) (odb_names o)))
        (Some (default (replicate 5 EmptyString) (odb_ca_name o)))
        (Some (default (replicate 5 false) (odb_enabled o)))
        (odb_measured o).

(** Modelled from the spec: [midas::odb::resize], of the ODB binding, which
    is missing from this source tree.  The array is resized, not reset:
    the existing values are kept and new trailing slots are zero. *)
Definition odb_resize (n : nat) (m : list float) : list float :=
  take n m ++ replicate (n - length m) float_zero.

Fixpoint epics_init_loop (env : init_env) (idx : list nat) (status : Z)
  : M Z :=
  match idx with
  | [] => ret status
  | i :: rest =>
      do enabled <- odb_index odb_enabled i;
      if negb enabled then epics_init_loop env rest status
      else
        do name <- odb_index odb_ca_name i;
        if negb (String.eqb name EmptyString) then
          let reply := ie_connect env i in
          run emit (ca_create_channel i name);
          run modify (set_beamline (set_measured_chid i (cr_chid reply)));
          let status := cr_status reply in
          run SEVCHK status;
          run emit (ca_pend_io 5);
          if (cr_pend reply =? ECA_TIMEOUT)%Z then
            run emit (cm_msg "epics_init"
                        ("Cannot connect to EPICS channel " ++ name));
            ret FE_ERR_HW
          else epics_init_loop env rest status
        else epics_init_loop env rest status
  end.

Definition epics_init (env : init_env) : M Z :=
  run emit ca_task_initialize;
  let status := ie_task_status env in
  if (Z.land status CA_M_SUCCESS =? 0)%Z then
    run emit (cm_msg "epics_init" "Unable to initialize EPICS");
    ret FE_ERR_HW
  else
    do n <- gets (fun st => beamline_length (beamline st));
    run modify (set_beamline (set_handles (replicate n None)));
    epics_init_loop env (seq 0 n) status.

Definition frontend_init (env : init_env) : M Z :=
  run modify (set_odb connect_settings);
  do names <- gets (fun st => default [] (odb_names (odb st)));
  let n := length names in
  do interval <- gets (fun st => default 0 (odb_update_interval (odb st)));
  run modify (set_beamline (fun b =>
        mkBeamline n (beamline_measured b) (DWORD interval)));
  do measured <- gets (fun st => odb_measured (odb st));
  run modify (set_odb (set_odb_measured
        match measured with
        | None => Some (replicate n float_zero)
        | Some m => Some (odb_resize n m)
        end));
  epics_init env.

(** *** Sampling *)

Definition epics_get_measured (reply : get_reply) (channel : nat) : M Z :=
  do handles <- gets (fun st => beamline_measured (beamline st));
  do handle <- lift_option bad_pointer (handles !! channel);
  match handle with
  | None => ret FE_SUCCESS                 (* Skip write-only channels *)
  | Some h =>
      do enabled <- odb_index odb_enabled channel;
      if negb enabled then ret FE_SUCCESS  (* Skip disabled channels *)
      else
        do name <- odb_index odb_names channel;
        run emit (ca_get h);
        run SEVCHK (gr_status reply);
        run emit (ca_pend_io CAGET_TIMEOUT);
        if (gr_pend reply =? ECA_TIMEOUT)%Z then
          run emit (cm_msg "epics_get_measured"
                      ("Timeout on EPICS channel " ++ name));
          ret FE_ERR_HW
        else
          run odb_write_measured channel (gr_value reply);
          ret FE_SUCCESS
  end.

(** [for (i ...) epics_get_measured(i);]  The status is dropped. *)
Fixpoint epics_sweep (replies : nat -> get_reply) (idx : list nat) : M unit :=
  match idx with
  | [] => ret tt
  | i :: rest =>
      do _status <- epics_get_measured (replies i) i;
      epics_sweep replies rest
  end.

(** [ss_millitime() - last_time_measured > beamline.updateInterval],
    on unsigned 32-bit integers. *)
Definition sweep_due (time : Z) (st : State) : bool :=
  beamline_updateInterval (beamline st)
    <? DWORD (ss_millitime time - last_time_measured st).

Definition epics_loop (t : tick) : M Z :=
  do due <- gets (sweep_due (tk_start t));
  run (if due then
         do n <- gets (fun st => beamline_length (beamline st));
         run epics_sweep (tk_replies t) (seq 0 n);
         modify (set_last_time_measured (ss_millitime (tk_end t)))
       else ret tt);
  run emit (ss_sleep 500);               (* don't eat all CPU *)
  ret CM_SUCCESS.

(** The frontend framework calls the installed loop again and again; other
    clients may write to the ODB in between.  [poll] returns the times at
    which a sweep started, oldest first. *)
Fixpoint poll (ticks : list tick) (st : State) : list Z :=
  match ticks with
  | [] => []
  | t :: rest =>
      let st := set_odb (tk_odb t) st in
      let started := if sweep_due (tk_start t) st then [tk_start t] else [] in
      match epics_loop t st with
      | Ok _ st' => started ++ poll rest st'
      | Crash _ => started
      end
  end.

End Frontend.

(** ** Observations on a run

    Pure descriptions of what a sample and a sweep leave behind, used to
    state the properties below. *)

Section Observations.

Context `{Headers}.

(** What one call of [epics_get_measured] stores, and what it sends out. *)
Definition sample_value (st : State) (reply : get_reply) (i : nat)
  : option float :=
  match beamline_measured (beamline st) !! i,
        odb_lookup odb_enabled i (odb st) with
  | Some (Some _), Some true =>
      if (gr_pend reply =? ECA_TIMEOUT)%Z then None else Some (gr_value reply)
  | _, _ => None
  end.

Definition sample_events (st : State) (reply : get_reply) (i : nat)
  : list event :=
  match beamline_measured (beamline st) !! i,
        odb_lookup odb_enabled i (odb st),
        odb_lookup odb_names i (odb st) with
  | Some (Some h), Some true, Some name =>
      [ca_get h; ca_pend_io CAGET_TIMEOUT] ++
      (if (gr_pend reply =? ECA_TIMEOUT)%Z
       then [cm_msg "epics_get_measured" ("Timeout on EPICS channel " ++ name)]
       else [])
  | _, _, _ => []
  end.

Definition store_sample (v : option float) (i : nat) (m : list float)
  : list float :=
  match v with
  | Some f => <[i := f]> m
  | None => m
  end.

Definition sweep_store (st : State) (replies : nat -> get_reply)
    (idx : list nat) (m : list float) : list float :=
  fold_left (fun acc j => store_sample (sample_value st (replies j) j) j acc)
            idx m.

Definition sweep_events (st : State) (replies : nat -> get_reply)
    (idx : list nat) : list event :=
  flat_map (fun j => sample_events st (replies j) j) idx.

(** A channel can be sampled: every array the code indexes has the slot,
    and [SEVCHK] lets the answer of [ca_get] pass. *)
Definition samplable (st : State) (m : list float) (reply : get_reply)
    (i : nat) : Prop :=
  (i < length (beamline_measured (beamline st)))%nat /\
  is_Some (odb_lookup odb_enabled i (odb st)) /\
  is_Some (odb_lookup odb_names i (odb st)) /\
  (i < length m)%nat /\
  SEVCHK_aborts (gr_status reply) = false.

(** Channel [i] is one that [epics_init] tries to connect: it is enabled
    and its [CA Name] is not empty. *)
Definition connects (st : State) (i : nat) : bool :=
  match odb_lookup odb_enabled i (odb st),
        odb_lookup odb_ca_name i (odb st) with
  | Some true, Some name => negb (String.eqb name EmptyString)
  | _, _ => false
  end.

Definition connect_events (st : State) (i : nat) : list event :=
  match odb_lookup odb_enabled i (odb st),
        odb_lookup odb_ca_name i (odb st) with
  | Some true, Some name =>
      if String.eqb name EmptyString then []
      else [ca_create_channel i name; ca_pend_io 5]
  | _, _ => []
  end.

Definition connect_handles (st : State) (env : init_env) (idx : list nat)
    (hs : list (option chid)) : list (option chid) :=
  fold_left (fun acc j =>
               if connects st j then <[j := cr_chid (ie_connect env j)]> acc
               else acc)
            idx hs.

(** The loop of [epics_init] can process channel [i]: the settings it
    indexes have the slot and [SEVCHK] lets the status of
    [ca_create_channel] pass. *)
Definition connectable (st : State) (env : init_env) (i : nat) : Prop :=
  is_Some (odb_lookup odb_enabled i (odb st)) /\
  is_Some (odb_lookup odb_ca_name i (odb st)) /\
  SEVCHK_aborts (cr_status (ie_connect env i)) = false.

(** The number of channels [frontend_init] settles on: the size of the
    [Names] setting once the defaults are in place. *)
Definition channel_count (o : ODB) : nat :=
  length (default (replicate 5 EmptyString) (odb_names o)).

(** The [Measured] array [frontend_init] leaves in the ODB. *)
Definition initial_measured (o : ODB) : list float :=
  match odb_measured o with
  | None => replicate (channel_count o) float_zero
  | Some m => odb_resize (channel_count o) m
  end.

(** [frontend_init] can process every channel. *)
Definition startable (st : State) (env : init_env) : Prop :=
  forall j, (j < channel_count (odb st))%nat ->
            connectable (set_odb connect_settings st) env j.

(** The ticks are in the order of time, none earlier than [from]. *)
Fixpoint chronological (from : Z) (ticks : list tick) : Prop :=
  match ticks with
  | [] => True
  | t :: rest =>
      from <= tk_start t /\ tk_start t <= tk_end t /\
      chronological (tk_end t) rest
  end.

(** Each time of the list is more than [gap] after the one before it. *)
Fixpoint spaced (gap : Z) (starts : list Z) : Prop :=
  match starts with
  | [] => True
  | a :: rest =>
      match rest with
      | [] => True
      | b :: _ => gap < b - a
      end /\ spaced gap rest
  end.

(** The configuration is consistent for the [n] channels of [beamline]:
    the handle array, the [Enabled] and [Names] settings and the
    [Measured] array [m] all have a slot for each of them. *)
Definition consistent (st : State) (m : list float) : Prop :=
  let n := beamline_length (beamline st) in
  (n <= length (beamline_measured (beamline st)))%nat /\
  (exists en, odb_enabled (odb st) = Some en /\ (n <= length en)%nat) /\
  (exists nm, odb_names (odb st) = Some nm /\ (n <= length nm)%nat) /\
  odb_measured (odb st) = Some m /\ (n <= length m)%nat.

(** [SEVCHK] lets every [ca_get] status of the sweep pass. *)
Definition accepted (replies : nat -> get_reply) (n : nat) : Prop :=
  forall i, (i < n)%nat -> SEVCHK_aborts (gr_status (replies i)) = false.

End Observations.

(** ** A concrete set of headers

    The values of the MIDAS and EPICS base headers: [FE_SUCCESS] and
    [CM_SUCCESS] are 1, [FE_ERR_HW] is 603, the success bit of a Channel
    Access status is bit 0 and its severity the low three bits (warning is
    0), [ECA_TIMEOUT] is [DEFMSG(CA_K_WARNING, 10)], and an event is a bank
    header followed by banks padded to eight bytes. *)

Definition align8 (n : Z) : Z := (n + 7) / 8 * 8.

#[local] Instance midas_epics_headers : Headers := {|
  FE_SUCCESS := 1;
  FE_ERR_HW := 603;
  CM_SUCCESS := 1;
  CA_M_SUCCESS := 1;
  ECA_TIMEOUT := 80;
  TID_FLOAT := 9;
  SEVCHK_aborts := fun s => negb (Z.testbit s 0) && negb (Z.land s 7 =? 0)%Z;
  bk_size := fun banks =>
    8 + fold_right (fun b acc => 8 + align8 (Z.of_nat (length (bank_data b))) + acc)
                   0 banks
|}.

(** Example inputs used to exercise the statements below. *)

Definition ECA_NORMAL : Z := 1.

Definition answer (bits : Z) : get_reply := mkGetReply ECA_NORMAL ECA_NORMAL (Float bits).

Definition silence : get_reply := mkGetReply ECA_NORMAL 80 (Float 0).

Definition one_silent : tick :=
  mkTick id 5000 (fun i => if decide (i = 2)%nat then silence else answer 7)
         5040.

Definition three_channels : State :=
  mkState (mkBeamline 3 [Some 1%positive; None; Some 3%positive] 1000)
          (mkODB (Some 1000) (Some ["HV"; "spare"; "Temp"])
                 (Some ["UCN:HV"; EmptyString; "UCN:TEMP"])
                 (Some [true; false; true])
                 (Some [Float 11; Float 22; Float 33]))
          0 [].

(** Every channel connects, and gets its index plus one as handle. *)
Definition all_connect : init_env :=
  mkInitEnv ECA_NORMAL
    (fun i => mkConnectReply ECA_NORMAL (Some (Pos.of_succ_nat i)) ECA_NORMAL).

(** The connect of the third channel does not complete. *)
Definition third_times_out : init_env :=
  mkInitEnv ECA_NORMAL
    (fun i => mkConnectReply ECA_NORMAL (Some (Pos.of_succ_nat i))
                (if decide (i = 2)%nat then 80 else ECA_NORMAL)).

(** An ODB in which the frontend has never run. *)
Definition empty_odb : ODB := mkODB None None None None None.

Definition two_channel_odb : ODB :=
  mkODB (Some 1000) (Some ["HV"; "Temp"]) (Some ["UCN:HV"; "UCN:TEMP"])
        (Some [true; true]) None.

(** The same settings, with the [Measured] array of an earlier run. *)
Definition restarted_odb : ODB :=
  set_odb_measured (Some [Float 1078530011; Float 1]) two_channel_odb.

(** Eight channels configured, five values left by an earlier run. *)
Definition grown_odb : ODB :=
  mkODB (Some 1000)
        (Some ["c0"; "c1"; "c2"; "c3"; "c4"; "c5"; "c6"; "c7"])
        (Some ["C0"; "C1"; "C2"; "C3"; "C4"; "C5"; "C6"; "C7"])
        (Some [true; true; true; true; true; true; true; true])
        (Some [Float 1; Float 2; Float 3; Float 4; Float 5]).

(** The state in which [frontend_init] leaves the two-channel set-up. *)
Definition started : State :=
  Eval vm_compute in
    match frontend_init all_connect (initial_state two_channel_odb) with
    | Ok _ st => st
    | Crash _ => initial_state two_channel_odb
    end.

(** The same state, after another client has disabled the first channel. *)
Definition disabled_after_start : State :=
  set_odb (set_odb_enabled (Some [false; true])) started.

(** The first channel answers 7, the second does not answer. *)
Definition second_silent : tick :=
  mkTick id 5000 (fun i => if decide (i = 1)%nat then silence else answer 7)
         5040.

(** The same tick, after another client has disabled the first channel
    and renamed the second. *)
Definition second_silent_reconfigured : tick :=
  mkTick (fun o => set_odb_enabled (Some [false; true])
                     (set_odb_names (Some ["HV"; "T2"]) o))
         5000 (fun i => if decide (i = 1)%nat then silence else answer 7)
         5040.

Definition three_ticks : list tick :=
  [mkTick id 5000 (fun _ => answer 7) 5040;
   mkTick id 5540 (fun _ => answer 8) 5541;
   mkTick id 6100 (fun _ => answer 9) 6140].

(** ** The rest of the source *)

(** *** Error dispatcher *)

Definition epics_fe_error (error : string) : M unit :=
  emit (cm_msg "epics_fe_error" error).

(** *** The start command of [frontend_init]

    [std::string] operations.  [find] gives the position of the first
    occurrence, [None] standing for [npos]; [replace] and [substr] throw
    ([None]) when the position is beyond the end of the string, and
    otherwise stop at its end. *)

Definition string_find (pattern str : string) : option nat :=
  String.index 0 pattern str.

Definition string_replace (pos len : nat) (s str : string) : option string :=
  if (pos <=? String.length str)%nat
  then Some (substring 0 pos str ++ s ++
             substring (pos + len) (String.length str - (pos + len)) str)%string
  else None.

Definition string_substr (pos count : nat) (str : string) : option string :=
  if (pos <=? String.length str)%nat
  then Some (substring pos count str)
  else None.

(** [startCommand] as computed from [__FILE__]; with [npos] the call of
    [replace] throws. *)
Definition start_command (file : string) : option string :=
  let s := "build/epics_fe" in
  match string_find "epics_fe.cxx" file with
  | Some i =>
      match string_replace i (String.length s) s file with
      | Some replaced => string_substr 0 (i + String.length s) replaced
      | None => None
      end
  | None => None
  end.

Section Runs.

Context `{Headers}.

(** The status [epics_init] has in hand after the channels of [idx] when
    no connect timed out: that of the last [ca_create_channel]. *)
Definition last_status (st : State) (env : init_env) (idx : list nat)
    (status : Z) : Z :=
  fold_left (fun s j => if connects st j then cr_status (ie_connect env j)
                        else s)
            idx status.

(** No channel that [epics_init] tries to connect times out. *)
Definition all_in_time (st : State) (env : init_env) (n : nat) : Prop :=
  forall j, (j < n)%nat -> connects st j = true ->
            cr_pend (ie_connect env j) <> ECA_TIMEOUT.

(** As [poll], with the time at which each sweep ended. *)
Fixpoint poll_spans (ticks : list tick) (st : State) : list (Z * Z) :=
  match ticks with
  | [] => []
  | t :: rest =>
      let st := set_odb (tk_odb t) st in
      let span :=
        if sweep_due (tk_start t) st then [(tk_start t, tk_end t)] else [] in
      match epics_loop t st with
      | Ok _ st' => span ++ poll_spans rest st'
      | Crash _ => span
      end
  end.

(** Each sweep starts more than [gap] after the end of the one before. *)
Fixpoint rested (gap : Z) (spans : list (Z * Z)) : Prop :=
  match spans with
  | [] => True
  | a :: rest =>
      match rest with
      | [] => True
      | b :: _ => gap < fst b - snd a
      end /\ rested gap rest
  end.

End Runs.

(** The driver does not start. *)
Definition driver_down : init_env :=
  mkInitEnv 0 (fun i => mkConnectReply ECA_NORMAL None ECA_NORMAL).

(** The state after the tick [one_silent] on [three_channels]. *)
Definition after_one_silent : State :=
  Eval vm_compute in
    match epics_loop one_silent three_channels with
    | Ok _ st => st
    | Crash _ => three_channels
    end.

(** A source path, and the frontend state when [Update interval] is -1. *)
Definition source_path : string := "/home/ucn/online/epics_fe.cxx".

Definition negative_interval_odb : ODB :=
  mkODB (Some (-1)) (Some ["HV"; "Temp"]) (Some ["UCN:HV"; "UCN:TEMP"])
        (Some [true; true]) None.

(** ** Properties *)

Ltac mstep :=
  unfold odb_index, emit, SEVCHK, lift_option, bind, gets, modify, ret, throw;
  simpl.

Ltac state_eq :=
  unfold add_log, set_odb, set_beamline, set_last_time_measured; simpl;
  rewrite <- ?app_assoc; simpl; reflexivity.

Ltac find_in := simpl; repeat (first [left; reflexivity | right]).

Section Properties.

Context `{Headers}.

(** *** One sample *)

Lemma set_measured_same st m :
  odb_measured (odb st) = Some m ->
  set_odb (set_odb_measured (Some m)) st = st.
Proof.
  destruct st as [b [u n c e x] l g]; simpl; intros ->; reflexivity.
Qed.

Lemma add_log_nil st : add_log [] st = st.
Proof.
  destruct st as [b o l g]; unfold add_log; simpl.
  by rewrite app_nil_r.
Qed.

Lemma add_log_add_log e1 e2 st :
  add_log e2 (add_log e1 st) = add_log (e1 ++ e2) st.
Proof.
  unfold add_log; simpl. by rewrite app_assoc.
Qed.

Lemma epics_get_measured_step reply i st m :
  odb_measured (odb st) = Some m ->
  (i < length (beamline_measured (beamline st)))%nat ->
  is_Some (odb_lookup odb_enabled i (odb st)) ->
  is_Some (odb_lookup odb_names i (odb st)) ->
  (i < length m)%nat ->
  SEVCHK_aborts (gr_status reply) = false ->
  exists status,
    epics_get_measured reply i st =
    Ok status
       (add_log (sample_events st reply i)
          (set_odb (set_odb_measured
                      (Some (store_sample (sample_value st reply i) i m))) st)).
Proof.
  intros Hm Hi [en Hen] [nm Hnm] Him Hs.
  apply lookup_lt_is_Some_2 in Hi as [h Hh].
  unfold epics_get_measured, sample_events, sample_value, store_sample.
  mstep. rewrite Hh. simpl.
  destruct h as [h|]; simpl.
  2:{ eexists. rewrite set_measured_same by done. rewrite add_log_nil. reflexivity. }
  rewrite Hen. simpl.
  destruct en; simpl.
  2:{ eexists. rewrite set_measured_same by done. rewrite add_log_nil. reflexivity. }
  rewrite Hnm, Hs. simpl.
  destruct (gr_pend reply =? ECA_TIMEOUT)%Z; simpl.
  - eexists. rewrite set_measured_same by done. state_eq.
  - unfold odb_write_measured. mstep. rewrite Hm.
    destruct (decide (i < length m)%nat); [|lia].
    eexists. state_eq.
Qed.

(** *** One sweep *)

Lemma store_sample_length v i m : length (store_sample v i m) = length m.
Proof.
  destruct v; simpl; [apply length_insert | reflexivity].
Qed.

Lemma sweep_store_length st replies idx m :
  length (sweep_store st replies idx m) = length m.
Proof.
  revert m; induction idx as [|i idx IH]; intros m; simpl; [done|].
  unfold sweep_store in *; simpl. by rewrite IH, store_sample_length.
Qed.

Lemma sweep_store_outside st replies idx m j :
  j ∉ idx -> sweep_store st replies idx m !! j = m !! j.
Proof.
  revert m; induction idx as [|i idx IH]; intros m Hj; [done|].
  apply not_elem_of_cons in Hj as [Hne Hj].
  unfold sweep_store in *; simpl. rewrite IH by done.
  unfold store_sample. destruct (sample_value _ _ _); [|done].
  by apply list_lookup_insert_ne.
Qed.

Lemma sweep_store_inside st replies idx m j :
  NoDup idx -> j ∈ idx ->
  sweep_store st replies idx m !! j
  = store_sample (sample_value st (replies j) j) j m !! j.
Proof.
  revert m; induction idx as [|i idx IH]; intros m Hnd Hj.
  { by apply elem_of_nil in Hj. }
  apply NoDup_cons in Hnd as [Hi Hnd].
  apply elem_of_cons in Hj as [->|Hj].
  - change (sweep_store st replies (i :: idx) m)
      with (sweep_store st replies idx
              (store_sample (sample_value st (replies i) i) i m)).
    by apply sweep_store_outside.
  - change (sweep_store st replies (i :: idx) m)
      with (sweep_store st replies idx
              (store_sample (sample_value st (replies i) i) i m)).
    rewrite IH by done.
    assert (i <> j) as Hne by (intros ->; contradiction).
    unfold store_sample.
    destruct (sample_value st (replies j) j) as [v|],
             (sample_value st (replies i) i) as [w|]; try done.
    + rewrite !list_lookup_insert, length_insert.
      repeat case_decide; try done; try lia.
    + by apply list_lookup_insert_ne.
Qed.

(** The sweep visits every channel of [idx]: no answer makes it stop. *)
Lemma epics_sweep_run replies idx :
  forall st m,
    odb_measured (odb st) = Some m ->
    (forall i, i ∈ idx -> samplable st m (replies i) i) ->
    epics_sweep replies idx st =
    Ok tt (add_log (sweep_events st replies idx)
             (set_odb (set_odb_measured (Some (sweep_store st replies idx m)))
                      st)).
Proof.
  induction idx as [|i idx IH]; intros st m Hm Hall.
  { simpl. unfold ret. rewrite set_measured_same by done.
    by rewrite add_log_nil. }
  destruct (Hall i) as (Hi & Hen & Hnm & Him & Hs); [by left|].
  destruct (epics_get_measured_step (replies i) i st m) as [status Hstep];
    try done.
  simpl. unfold bind at 1. rewrite Hstep.
  set (m1 := store_sample (sample_value st (replies i) i) i m).
  set (st1 := add_log _ _).
  rewrite (IH st1 m1); [| done |].
  - f_equal. subst st1 m1.
    unfold sweep_store, sweep_events, add_log, set_odb; simpl.
    rewrite <- app_assoc. reflexivity.
  - intros j Hj. destruct (Hall j) as (Hj1 & Hj2 & Hj3 & Hj4 & Hj5);
      [by right|].
    repeat split; try done.
    subst m1. by rewrite store_sample_length.
Qed.

(** What a sample never touches: [beamline] and the static time stamp. *)
Lemma epics_get_measured_frame reply i st status st' :
  epics_get_measured reply i st = Ok status st' ->
  beamline st' = beamline st /\
  last_time_measured st' = last_time_measured st.
Proof.
  unfold epics_get_measured, odb_write_measured. mstep.
  destruct (beamline_measured (beamline st) !! i) as [[h|]|]; simpl;
    [| by intros [= _ <-] | done].
  destruct (odb_lookup odb_enabled i (odb st)) as [[|]|]; simpl;
    [| by intros [= _ <-] | done].
  destruct (odb_lookup odb_names i (odb st)); simpl; [|done].
  destruct (SEVCHK_aborts (gr_status reply)); simpl; [done|].
  destruct (gr_pend reply =? ECA_TIMEOUT)%Z; simpl; [by intros [= _ <-]|].
  destruct (odb_measured (odb st)); simpl; [|done].
  case_decide; simpl; [by intros [= _ <-] | done].
Qed.

Lemma epics_sweep_frame replies idx :
  forall st u st',
    epics_sweep replies idx st = Ok u st' ->
    beamline st' = beamline st /\
    last_time_measured st' = last_time_measured st.
Proof.
  induction idx as [|i idx IH]; intros st u st'; simpl.
  { by intros [= _ <-]. }
  unfold bind at 1.
  destruct (epics_get_measured (replies i) i st) as [s st1|] eqn:E; [|done].
  intros Hrest. apply IH in Hrest as [-> ->].
  by apply epics_get_measured_frame in E.
Qed.

(** *** One call of the loop *)

Lemma epics_loop_idle t st :
  sweep_due (tk_start t) st = false ->
  epics_loop t st = Ok CM_SUCCESS (add_log [ss_sleep 500] st).
Proof.
  intros Hdue. unfold epics_loop. mstep. by rewrite Hdue.
Qed.

Lemma epics_loop_sweeps t st m :
  sweep_due (tk_start t) st = true ->
  odb_measured (odb st) = Some m ->
  (forall i, (i < beamline_length (beamline st))%nat ->
             samplable st m (tk_replies t i) i) ->
  let idx := seq 0 (beamline_length (beamline st)) in
  epics_loop t st =
  Ok CM_SUCCESS
     (add_log (sweep_events st (tk_replies t) idx ++ [ss_sleep 500])
        (set_last_time_measured (ss_millitime (tk_end t))
           (set_odb (set_odb_measured
                       (Some (sweep_store st (tk_replies t) idx m))) st))).
Proof.
  intros Hdue Hm Hall idx. unfold epics_loop. mstep. rewrite Hdue.
  fold idx. rewrite (epics_sweep_run _ idx st m Hm).
  - simpl. f_equal. state_eq.
  - intros i Hi. apply Hall. subst idx. apply elem_of_seq in Hi. lia.
Qed.

(** The state of the loop after a call that returns. *)
Lemma epics_loop_frame t st r st' :
  epics_loop t st = Ok r st' ->
  beamline st' = beamline st /\
  last_time_measured st' =
    (if sweep_due (tk_start t) st then ss_millitime (tk_end t)
     else last_time_measured st) /\
  exists evs : list event, log st' = evs ++ [ss_sleep 500].
Proof.
  unfold epics_loop. mstep.
  destruct (sweep_due (tk_start t) st).
  - destruct (epics_sweep _ _ st) as [u st1|] eqn:E; [|done].
    simpl. intros [= _ <-]. simpl.
    apply epics_sweep_frame in E as [-> _]. eauto.
  - intros [= _ <-]. simpl. eauto.
Qed.

Lemma consistent_samplable st m replies :
  consistent st m ->
  accepted replies (beamline_length (beamline st)) ->
  forall i, (i < beamline_length (beamline st))%nat ->
            samplable st m (replies i) i.
Proof.
  intros (Hh & (en & Hen & Hlen) & (nm & Hnm & Hlnm) & Hm & Hlm) Hacc i Hi.
  unfold samplable, odb_lookup. rewrite Hen, Hnm.
  repeat split; try lia.
  - apply lookup_lt_is_Some_2; lia.
  - apply lookup_lt_is_Some_2; lia.
  - by apply Hacc.
Qed.

(** C1.  A sweep in which the read of channel [k] times out still runs to
    its end: the loop returns [CM_SUCCESS], slot [k] of [Measured] keeps
    its value, the timeout is reported through [cm_msg] under the name of
    the channel, and every other channel whose read succeeds has its slot
    set to the value read. *)
Theorem sweep_isolates_timeout
    (t : tick) (st : State) (m : list float)
    (k : nat) (h : chid) (name : string) :
  consistent st m ->
  accepted (tk_replies t) (beamline_length (beamline st)) ->
  sweep_due (tk_start t) st = true ->
  (k < beamline_length (beamline st))%nat ->
  beamline_measured (beamline st) !! k = Some (Some h) ->
  odb_lookup odb_enabled k (odb st) = Some true ->
  odb_lookup odb_names k (odb st) = Some name ->
  gr_pend (tk_replies t k) = ECA_TIMEOUT ->
  exists st' evs,
    epics_loop t st = Ok CM_SUCCESS st' /\
    odb_lookup odb_measured k (odb st') = m !! k /\
    log st' = log st ++ evs /\
    In (cm_msg "epics_get_measured" ("Timeout on EPICS channel " ++ name)) evs /\
    forall j hj,
      (j < beamline_length (beamline st))%nat ->
      beamline_measured (beamline st) !! j = Some (Some hj) ->
      odb_lookup odb_enabled j (odb st) = Some true ->
      gr_pend (tk_replies t j) <> ECA_TIMEOUT ->
      odb_lookup odb_measured j (odb st') = Some (gr_value (tk_replies t j)).
Proof.
  intros Hc Hacc Hdue Hk Hh Hen Hnm Hto.
  pose proof (consistent_samplable _ _ _ Hc Hacc) as Hall.
  destruct Hc as (_ & _ & _ & Hm & Hlm).
  eexists _, _. split; [by apply (epics_loop_sweeps t st m)|].
  unfold odb_lookup at 1. simpl.
  split; [|split; [reflexivity|split]].
  - rewrite sweep_store_inside
      by (apply NoDup_seq || (apply elem_of_seq; lia)).
    unfold sample_value. rewrite Hh, Hen.
    apply Z.eqb_eq in Hto. by rewrite Hto.
  - apply in_or_app. left. unfold sweep_events.
    apply in_flat_map. exists k. split; [apply in_seq; lia|].
    unfold sample_events. rewrite Hh, Hen, Hnm.
    apply Z.eqb_eq in Hto. rewrite Hto. simpl. auto.
  - intros j hj Hj Hhj Henj Hok.
    unfold odb_lookup. simpl.
    rewrite sweep_store_inside
      by (apply NoDup_seq || (apply elem_of_seq; lia)).
    unfold sample_value. rewrite Hhj, Henj.
    apply Z.eqb_neq in Hok. rewrite Hok. simpl.
    apply list_lookup_insert_eq. lia.
Qed.

(** *** Initialisation *)

Lemma epics_init_loop_frame env idx :
  forall status st r st',
    epics_init_loop env idx status st = Ok r st' ->
    odb st' = odb st /\
    last_time_measured st' = last_time_measured st /\
    beamline_length (beamline st') = beamline_length (beamline st) /\
    beamline_updateInterval (beamline st') =
      beamline_updateInterval (beamline st) /\
    length (beamline_measured (beamline st')) =
      length (beamline_measured (beamline st)).
Proof.
  induction idx as [|i idx IH]; intros status st r st'; simpl.
  { by intros [= _ <-]. }
  mstep.
  destruct (odb_lookup odb_enabled i (odb st)) as [[|]|]; simpl;
    [| by apply IH | done].
  destruct (odb_lookup odb_ca_name i (odb st)) as [name|]; simpl; [|done].
  destruct (String.eqb name EmptyString); simpl; [by apply IH|].
  destruct (SEVCHK_aborts _); simpl; [done|].
  destruct (cr_pend (ie_connect env i) =? ECA_TIMEOUT)%Z; simpl.
  - intros [= _ <-]. simpl. by rewrite length_insert.
  - intros Hrest. apply IH in Hrest as (-> & -> & -> & -> & ->).
    simpl. by rewrite length_insert.
Qed.

(** The loop always comes to an end on channels it can process. *)
Lemma epics_init_loop_returns env idx :
  forall status st,
    (forall i, In i idx -> connectable st env i) ->
    exists r st', epics_init_loop env idx status st = Ok r st'.
Proof.
  induction idx as [|i idx IH]; intros status st Hall; simpl.
  { by eexists _, _. }
  destruct (Hall i) as ([en Hen] & [name Hnm] & Hs); [by left|].
  mstep. rewrite Hen; simpl.
  destruct en; simpl; [|apply IH; intros; apply Hall; by right].
  rewrite Hnm; simpl.
  destruct (String.eqb name EmptyString); simpl;
    [apply IH; intros; apply Hall; by right|].
  rewrite Hs; simpl.
  destruct (cr_pend (ie_connect env i) =? ECA_TIMEOUT)%Z; simpl.
  - by eexists _, _.
  - apply IH. intros j Hj. apply (Hall j). by right.
Qed.

(** The channels before the first connect timeout are all processed. *)
Lemma epics_init_loop_prefix env pre rest :
  forall status st,
    (forall j, In j pre ->
       connectable st env j /\
       (connects st j = true -> cr_pend (ie_connect env j) <> ECA_TIMEOUT)) ->
    exists status',
      epics_init_loop env (pre ++ rest) status st =
      epics_init_loop env rest status'
        (add_log (flat_map (connect_events st) pre)
           (set_beamline
              (set_handles
                 (connect_handles st env pre (beamline_measured (beamline st))))
              st)).
Proof.
  induction pre as [|i pre IH]; intros status st Hall.
  { exists status. simpl. rewrite add_log_nil. by destruct st as [[] ? ? ?]. }
  destruct (Hall i) as (([en Hen] & [name Hnm] & Hs) & Hpend); [by left|].
  assert (Hrest : forall st1, odb st1 = odb st ->
            forall j, In j pre ->
              connectable st1 env j /\
              (connects st1 j = true ->
               cr_pend (ie_connect env j) <> ECA_TIMEOUT)).
  { intros st1 Ho j Hj. unfold connectable, connects. rewrite Ho.
    apply Hall. by right. }
  simpl. mstep. unfold connect_events at 1, connects at 1.
  unfold connects in Hpend.
  rewrite Hen; simpl. rewrite Hen in Hpend.
  destruct en; simpl.
  2:{ destruct (IH status st (Hrest st eq_refl)) as [s' ->]. by exists s'. }
  rewrite Hnm; simpl. rewrite Hnm in Hpend.
  destruct (String.eqb name EmptyString); simpl.
  { destruct (IH status st (Hrest st eq_refl)) as [s' ->]. by exists s'. }
  rewrite Hs; simpl.
  destruct (cr_pend (ie_connect env i) =? ECA_TIMEOUT)%Z eqn:E.
  { apply Z.eqb_eq in E. by destruct Hpend. }
  match goal with
  | |- context [epics_init_loop env (pre ++ rest) ?s ?st1] =>
      destruct (IH s st1 (Hrest st1 eq_refl)) as [s' ->]
  end.
  exists s'. f_equal. state_eq.
Qed.

Lemma connect_handles_length st env idx hs :
  length (connect_handles st env idx hs) = length hs.
Proof.
  revert hs; induction idx as [|i idx IH]; intros hs; [done|].
  unfold connect_handles in *; simpl. rewrite IH.
  destruct (connects st i); [apply length_insert | done].
Qed.

Lemma connect_handles_outside st env idx hs j :
  ~ In j idx -> connect_handles st env idx hs !! j = hs !! j.
Proof.
  revert hs; induction idx as [|i idx IH]; intros hs Hj; [done|].
  unfold connect_handles in *; simpl. rewrite IH by (intros ?; apply Hj; by right).
  destruct (connects st i); [|done].
  apply list_lookup_insert_ne. intros ->. apply Hj. by left.
Qed.

Lemma connect_handles_inside st env idx hs j :
  List.NoDup idx -> In j idx -> (j < length hs)%nat ->
  connects st j = true ->
  connect_handles st env idx hs !! j = Some (cr_chid (ie_connect env j)).
Proof.
  revert hs; induction idx as [|i idx IH]; intros hs Hnd Hj Hlt Hc; [done|].
  apply List.NoDup_cons_iff in Hnd as [Hi Hnd].
  change (connect_handles st env (i :: idx) hs)
    with (connect_handles st env idx
            (if connects st i then <[i := cr_chid (ie_connect env i)]> hs
             else hs)).
  destruct Hj as [->|Hj].
  - rewrite Hc. rewrite (connect_handles_outside st env idx _ j Hi).
    by apply list_lookup_insert_eq.
  - apply IH; try done.
    destruct (connects st i); [by rewrite length_insert | done].
Qed.

Lemma connect_events_channel st idx j name :
  In (ca_create_channel j name) (flat_map (connect_events st) idx) ->
  In j idx.
Proof.
  intros Hin. apply in_flat_map in Hin as (i & Hi & Hev).
  unfold connect_events in Hev.
  destruct (odb_lookup odb_enabled i (odb st)) as [[|]|]; try done.
  destruct (odb_lookup odb_ca_name i (odb st)) as [nm|]; try done.
  destruct (String.eqb nm EmptyString); try done.
  destruct Hev as [[= <- _]|[|]]; done.
Qed.

(** C2.  When [ca_task_initialize] succeeds and channel [i] is the first
    enabled channel with a [CA Name] whose connect does not complete
    within [ca_pend_io(5)], [epics_init] returns [FE_ERR_HW]; the failure
    is reported; no channel after [i] is attempted (no
    [ca_create_channel] is issued for it and its handle stays null); and
    every channel connected before [i] keeps the handle it was given. *)
Theorem epics_init_connect_timeout
    (env : init_env) (st : State) (i : nat) (name : string) :
  let n := beamline_length (beamline st) in
  Z.land (ie_task_status env) CA_M_SUCCESS <> 0 ->
  (forall j, (j < n)%nat -> connectable st env j) ->
  (i < n)%nat ->
  odb_lookup odb_enabled i (odb st) = Some true ->
  odb_lookup odb_ca_name i (odb st) = Some name ->
  name <> EmptyString ->
  cr_pend (ie_connect env i) = ECA_TIMEOUT ->
  (forall j, (j < i)%nat -> connects st j = true ->
             cr_pend (ie_connect env j) <> ECA_TIMEOUT) ->
  exists st' evs,
    epics_init env st = Ok FE_ERR_HW st' /\
    log st' = log st ++ evs /\
    (exists before,
       evs = before ++
             [ca_create_channel i name; ca_pend_io 5;
              cm_msg "epics_init" ("Cannot connect to EPICS channel " ++ name)])
    /\
    (forall j nm, In (ca_create_channel j nm) evs -> (j <= i)%nat) /\
    (forall j, (i < j < n)%nat ->
               beamline_measured (beamline st') !! j = Some None) /\
    (forall j, (j < i)%nat -> connects st j = true ->
               beamline_measured (beamline st') !! j
               = Some (cr_chid (ie_connect env j))).
Proof.
  intros n Htask Hall Hi Hen Hnm Hname Hto Hfirst.
  unfold epics_init. mstep.
  apply Z.eqb_neq in Htask. rewrite Htask.
  change (beamline_length (beamline (add_log [ca_task_initialize] st)))
    with n.
  assert (Hseq : seq 0 n = seq 0 i ++ i :: seq (S i) (n - S i)).
  { replace n with (i + S (n - S i))%nat at 1 by lia.
    by rewrite seq_app. }
  rewrite Hseq.
  set (st0 := set_beamline _ _).
  destruct (epics_init_loop_prefix env (seq 0 i)
              (i :: seq (S i) (n - S i)) (ie_task_status env) st0)
    as [s' ->].
  { intros j Hj. apply in_seq in Hj. split.
    - apply (Hall j). lia.
    - apply Hfirst. lia. }
  simpl. mstep.
  change (odb st0) with (odb st). rewrite Hen; simpl. rewrite Hnm; simpl.
  apply String.eqb_neq in Hname. rewrite Hname; simpl.
  destruct (Hall i Hi) as (_ & _ & ->); simpl.
  apply Z.eqb_eq in Hto. rewrite Hto.
  eexists _, _. split; [reflexivity|]. simpl.
  split; [rewrite <- !app_assoc; reflexivity|].
  split; [|split; [|split]].
  - exists ([ca_task_initialize] ++ flat_map (connect_events st0) (seq 0 i)).
    rewrite <- !app_assoc. reflexivity.
  - intros j nm Hin. rewrite !in_app_iff in Hin. simpl in Hin.
    destruct Hin as [[?|[]]|[Hin|[[Heq|[]]|[[?|[]]|[?|[]]]]]];
      try discriminate.
    + apply connect_events_channel in Hin. apply in_seq in Hin. lia.
    + injection Heq as <- _. lia.
  - intros j Hj. rewrite list_lookup_insert_ne by lia.
    rewrite connect_handles_outside by (rewrite in_seq; lia).
    apply lookup_replicate_2. lia.
  - intros j Hj Hc. rewrite list_lookup_insert_ne by lia.
    apply connect_handles_inside; try done.
    + apply List.seq_NoDup.
    + apply in_seq; lia.
    + rewrite length_replicate. lia.
Qed.

Lemma epics_init_frame env st r st' :
  epics_init env st = Ok r st' ->
  odb st' = odb st /\
  last_time_measured st' = last_time_measured st /\
  beamline_length (beamline st') = beamline_length (beamline st) /\
  beamline_updateInterval (beamline st') =
    beamline_updateInterval (beamline st).
Proof.
  unfold epics_init. mstep.
  destruct (Z.land (ie_task_status env) CA_M_SUCCESS =? 0)%Z.
  - by intros [= _ <-].
  - intros Hloop. by apply epics_init_loop_frame in Hloop as (? & ? & ? & ? & _).
Qed.

Lemma epics_init_returns env st :
  (forall j, (j < beamline_length (beamline st))%nat ->
             connectable st env j) ->
  exists r st', epics_init env st = Ok r st'.
Proof.
  intros Hall. unfold epics_init. mstep.
  destruct (Z.land (ie_task_status env) CA_M_SUCCESS =? 0)%Z.
  - by eexists _, _.
  - apply epics_init_loop_returns. intros j Hj. apply in_seq in Hj.
    apply (Hall j). simpl in Hj. lia.
Qed.

(** What [frontend_init] has set up when it hands over to [epics_init]. *)
Lemma frontend_init_frame env st r st' :
  frontend_init env st = Ok r st' ->
  odb st' = set_odb_measured (Some (initial_measured (odb st)))
              (connect_settings (odb st)) /\
  last_time_measured st' = last_time_measured st /\
  beamline_length (beamline st') = channel_count (odb st) /\
  beamline_updateInterval (beamline st') =
    DWORD (default 10 (odb_update_interval (odb st))).
Proof.
  unfold frontend_init. mstep. intros Hinit.
  apply epics_init_frame in Hinit as (-> & -> & -> & ->). simpl.
  repeat split. unfold initial_measured, channel_count.
  by destruct (odb_measured (odb st)).
Qed.

Lemma frontend_init_returns env st :
  startable st env -> exists r st', frontend_init env st = Ok r st'.
Proof.
  intros Hstart. unfold frontend_init. mstep.
  apply epics_init_returns. simpl. intros j Hj. by apply Hstart.
Qed.

(** C6.  [frontend_init] returns with the [Measured] array of the ODB sized
    to the channel count [n] (the size of [Names]): created as [n] zeros
    when the key was absent, and, when it existed with at most [n] values,
    resized to [n] with the existing values kept in place and the new
    trailing slots zero. *)
Theorem frontend_init_measured (env : init_env) (st : State) :
  startable st env ->
  exists r st',
    frontend_init env st = Ok r st' /\
    let n := beamline_length (beamline st') in
    n = channel_count (odb st) /\
    (odb_measured (odb st) = None ->
       odb_measured (odb st') = Some (replicate n float_zero)) /\
    (forall m,
       odb_measured (odb st) = Some m -> (length m <= n)%nat ->
       odb_measured (odb st') =
         Some (m ++ replicate (n - length m) float_zero)).
Proof.
  intros Hstart.
  destruct (frontend_init_returns env st Hstart) as (r & st' & Hrun).
  exists r, st'. split; [done|].
  apply frontend_init_frame in Hrun as (-> & _ & -> & _). simpl.
  unfold initial_measured. repeat split.
  - by intros ->.
  - intros m -> Hlen. unfold odb_resize. by rewrite take_ge.
Qed.

(** *** Readout *)

Lemma epics_read_loop_run st m :
  odb_measured (odb st) = Some m ->
  forall k a pdata,
    (a + k <= length m)%nat ->
    epics_read_loop (seq a k) pdata st = Ok (pdata ++ take k (drop a m)) st.
Proof.
  intros Hm. induction k as [|k IH]; intros a pdata Hlen; simpl.
  { unfold ret. by rewrite take_0, app_nil_r. }
  mstep. unfold odb_lookup. rewrite Hm.
  destruct (lookup_lt_is_Some_2 m a) as [v Hv]; [lia|].
  rewrite Hv. simpl. rewrite IH by lia. f_equal.
  rewrite <- app_assoc. f_equal. simpl.
  rewrite (drop_S m v a Hv). reflexivity.
Qed.

Lemma float_bytes_length f : length (float_bytes f) = 4%nat.
Proof. reflexivity. Qed.

Lemma flat_map_float_bytes_length l :
  length (flat_map float_bytes l) = (4 * length l)%nat.
Proof.
  induction l as [|f l IH]; [done|].
  change (flat_map float_bytes (f :: l))
    with (float_bytes f ++ flat_map float_bytes l).
  rewrite length_app, IH, float_bytes_length. simpl. lia.
Qed.

Lemma flat_map_float_bytes_slot l :
  forall i f,
    l !! i = Some f ->
    take 4 (drop (4 * i) (flat_map float_bytes l)) = float_bytes f.
Proof.
  induction l as [|g l IH]; intros i f Hi; [done|].
  destruct i as [|i].
  - injection Hi as ->. reflexivity.
  - replace (4 * S i)%nat with (4 + 4 * i)%nat by lia.
    change (flat_map float_bytes (g :: l))
      with (float_bytes g ++ flat_map float_bytes l).
    rewrite <- drop_drop.
    rewrite (drop_app_length' (float_bytes g)) by reflexivity.
    by apply IH.
Qed.

(** C5.  For any channel count [n] and any [Measured] array with a slot
    for each channel, the readout routine builds one bank [E000] of type
    [TID_FLOAT] whose data are the four bytes of [Measured[0]], then those
    of [Measured[1]], and so on up to [Measured[n-1]]: exactly [4 * n]
    bytes, none when [n] is 0.  The state is not changed. *)
Theorem epics_read_record (st : State) (m : list float) :
  let n := beamline_length (beamline st) in
  odb_measured (odb st) = Some m ->
  (n <= length m)%nat ->
  exists data,
    epics_read st =
      Ok ([Bank "E000" TID_FLOAT data], bk_size [Bank "E000" TID_FLOAT data])
         st /\
    data = flat_map float_bytes (take n m) /\
    length data = (4 * n)%nat /\
    (forall i, (i < n)%nat ->
       exists f, m !! i = Some f /\
                 take 4 (drop (4 * i) data) = float_bytes f) /\
    (n = 0%nat -> data = []).
Proof.
  intros n Hm Hn. eexists. split; [|split; [reflexivity|split; [|split]]].
  - unfold epics_read. mstep. fold n.
    rewrite (epics_read_loop_run st m Hm) by (simpl; lia).
    by rewrite drop_0.
  - rewrite flat_map_float_bytes_length, length_take. lia.
  - intros i Hi. destruct (lookup_lt_is_Some_2 m i) as [f Hf]; [lia|].
    exists f. split; [done|].
    apply flat_map_float_bytes_slot. by rewrite lookup_take_lt.
  - by intros ->.
Qed.

Lemma initial_measured_length o :
  length (initial_measured o) = channel_count o.
Proof.
  unfold initial_measured, odb_resize.
  destruct (odb_measured o) as [m|].
  - rewrite length_app, length_take, length_replicate. lia.
  - apply length_replicate.
Qed.

Lemma flat_map_float_bytes_zero n :
  flat_map float_bytes (replicate n float_zero) = replicate (4 * n) 0.
Proof.
  induction n as [|n IH]; [done|].
  replace (4 * S n)%nat with (4 + 4 * n)%nat by lia.
  simpl replicate. simpl flat_map. by rewrite IH.
Qed.

(** C8, as the code has it.  Called before any sweep, the readout routine
    returns the [n]-value record holding the [Measured] array as
    initialisation left it: all zero when the key was absent from the ODB,
    and otherwise the values of the earlier run, cut or zero-extended to
    [n] values. *)
Theorem epics_read_before_first_sweep (env : init_env) (st : State) :
  startable st env ->
  exists r st' data,
    frontend_init env st = Ok r st' /\
    epics_read st' =
      Ok ([Bank "E000" TID_FLOAT data], bk_size [Bank "E000" TID_FLOAT data])
         st' /\
    data = flat_map float_bytes (initial_measured (odb st)) /\
    (odb_measured (odb st) = None ->
       data = replicate (4 * beamline_length (beamline st')) 0) /\
    (forall m, odb_measured (odb st) = Some m ->
       data = flat_map float_bytes
                (odb_resize (beamline_length (beamline st')) m)).
Proof.
  intros Hstart.
  destruct (frontend_init_returns env st Hstart) as (r & st' & Hrun).
  pose proof (frontend_init_frame _ _ _ _ Hrun) as (Ho & _ & Hn & _).
  destruct (epics_read_record st' (initial_measured (odb st)))
    as (data & Hread & -> & _).
  { by rewrite Ho. }
  { rewrite Hn, initial_measured_length. lia. }
  exists r, st', (flat_map float_bytes (initial_measured (odb st))).
  rewrite Hn in *.
  rewrite take_ge in * by (rewrite initial_measured_length; lia).
  repeat split; try done.
  - intros Hnone. unfold initial_measured. rewrite Hnone.
    apply flat_map_float_bytes_zero.
  - intros m Hm. unfold initial_measured. by rewrite Hm.
Qed.

(** *** The poll cycle *)

Lemma sample_events_no_sleep st reply i ms :
  ~ In (ss_sleep ms) (sample_events st reply i).
Proof.
  unfold sample_events.
  destruct (beamline_measured (beamline st) !! i) as [[h|]|];
    [| simpl; tauto ..].
  destruct (odb_lookup odb_enabled i (odb st)) as [[|]|];
    [| simpl; tauto ..].
  destruct (odb_lookup odb_names i (odb st)); [| simpl; tauto].
  destruct (gr_pend reply =? ECA_TIMEOUT)%Z; simpl; intuition discriminate.
Qed.

(** C9, as the code has it.  Every call of the loop ends with one
    [ss_sleep(500)], whether or not it swept and whatever the update
    interval is; nothing else in the call sleeps.  The pause is a constant
    of the code, not a function of the interval. *)
Theorem loop_pause_fixed (t : tick) (st : State) (m : list float) :
  consistent st m ->
  accepted (tk_replies t) (beamline_length (beamline st)) ->
  exists st' evs,
    epics_loop t st = Ok CM_SUCCESS st' /\
    log st' = log st ++ evs ++ [ss_sleep 500] /\
    (forall ms, ~ In (ss_sleep ms) evs) /\
    beamline_updateInterval (beamline st') =
      beamline_updateInterval (beamline st).
Proof.
  intros Hc Hacc.
  destruct (sweep_due (tk_start t) st) eqn:Hdue.
  - pose proof (consistent_samplable _ _ _ Hc Hacc) as Hall.
    destruct Hc as (_ & _ & _ & Hm & _).
    eexists _, _. split; [by apply (epics_loop_sweeps t st m)|].
    simpl. repeat split.
    intros ms Hin. unfold sweep_events in Hin.
    apply in_flat_map in Hin as (i & _ & Hin).
    by apply sample_events_no_sleep in Hin.
  - exists (add_log [ss_sleep 500] st), [].
    split; [by apply epics_loop_idle|]. simpl. repeat split. tauto.
Qed.

Lemma sweep_due_elapsed time from st :
  last_time_measured st = ss_millitime from ->
  from <= time ->
  sweep_due time st = true ->
  beamline_updateInterval (beamline st) < time - from.
Proof.
  unfold sweep_due, ss_millitime, DWORD. intros -> Hle Hdue.
  apply Z.ltb_lt in Hdue. rewrite <- Zminus_mod in Hdue.
  assert ((time - from) mod 2 ^ 32 <= time - from)
    by (apply Z.mod_le; lia).
  lia.
Qed.

Lemma chronological_earlier a b ticks :
  b <= a -> chronological a ticks -> chronological b ticks.
Proof.
  destruct ticks as [|t rest]; simpl; [done|]. intros ? (? & ? & ?).
  repeat split; try done. lia.
Qed.

(** After a time stamp taken at [from], the next sweep starts more than
    one interval later, and so do all the following ones. *)
Lemma poll_spaced_from ticks :
  forall st from,
    last_time_measured st = ss_millitime from ->
    chronological from ticks ->
    match poll ticks st with
    | [] => True
    | s :: _ => beamline_updateInterval (beamline st) < s - from
    end /\
    spaced (beamline_updateInterval (beamline st)) (poll ticks st).
Proof.
  induction ticks as [|t rest IH]; intros st from Hlast Hchron; [done|].
  destruct Hchron as (Hs & He & Hrest).
  simpl poll. set (st1 := set_odb (tk_odb t) st).
  assert (Hlast1 : last_time_measured st1 = ss_millitime from) by done.
  destruct (sweep_due (tk_start t) st1) eqn:Hdue.
  - pose proof (sweep_due_elapsed _ _ _ Hlast1 Hs Hdue) as Hgap.
    destruct (epics_loop t st1) as [r st'|] eqn:Hloop; [|done].
    apply epics_loop_frame in Hloop as (Hb & Hl & _).
    change (beamline st1) with (beamline st) in *. rewrite Hdue in Hl.
    destruct (IH st' (tk_end t) Hl Hrest) as [Hhead Hsp].
    rewrite Hb in Hhead, Hsp. simpl. repeat split; try done.
    revert Hhead. destruct (poll rest st'); [done|]. lia.
  - destruct (epics_loop t st1) as [r st'|] eqn:Hloop; [|done].
    apply epics_loop_frame in Hloop as (Hb & Hl & _).
    change (beamline st1) with (beamline st) in *. rewrite Hdue in Hl.
    simpl. rewrite <- Hb. apply IH; [congruence|].
    apply (chronological_earlier (tk_end t)); [lia | done].
Qed.

(** C3.  In every run of the poll loop over ticks in the order of time,
    the start times of successive sweeps are more than one update
    interval apart.  A call in which the time elapsed since the recorded
    time stamp does not exceed the interval sweeps nothing, and every call
    that returns has ended with [ss_sleep(500)]. *)
Theorem sweeps_spaced (ticks : list tick) (st : State) (from : Z) :
  chronological from ticks ->
  spaced (beamline_updateInterval (beamline st)) (poll ticks st) /\
  (forall t s,
     sweep_due (tk_start t) s = false ->
     epics_loop t s = Ok CM_SUCCESS (add_log [ss_sleep 500] s)) /\
  (forall t s r s',
     epics_loop t s = Ok r s' ->
     exists evs : list event, log s' = evs ++ [ss_sleep 500]).
Proof.
  intros Hchron. split; [|split].
  - revert st from Hchron.
    induction ticks as [|t rest IH]; intros st from Hchron; [done|].
    destruct Hchron as (Hs & He & Hrest).
    simpl poll. set (st1 := set_odb (tk_odb t) st).
    destruct (epics_loop t st1) as [r st'|] eqn:Hloop;
      [|by destruct (sweep_due _ _)].
    apply epics_loop_frame in Hloop as (Hb & Hl & _).
    change (beamline st1) with (beamline st) in *.
    destruct (sweep_due (tk_start t) st1).
    + destruct (poll_spaced_from rest st' (tk_end t) Hl Hrest)
        as [Hhead Hsp].
      rewrite Hb in Hhead, Hsp. simpl. split; [|done].
      revert Hhead. destruct (poll rest st'); [done|]. lia.
    + simpl. rewrite <- Hb. by apply (IH st' (tk_end t)).
  - intros t s. apply epics_loop_idle.
  - intros t s r s' Hloop. by apply epics_loop_frame in Hloop as (_ & _ & ?).
Qed.

(** What [frontend_init] has sized when it returns after the driver has
    started: one handle slot per channel. *)
Lemma frontend_init_handles env st r st' :
  Z.land (ie_task_status env) CA_M_SUCCESS <> 0 ->
  frontend_init env st = Ok r st' ->
  length (beamline_measured (beamline st')) = channel_count (odb st).
Proof.
  intros Htask. unfold frontend_init, epics_init. mstep.
  apply Z.eqb_neq in Htask. rewrite Htask. intros Hloop.
  apply epics_init_loop_frame in Hloop as (_ & _ & _ & _ & ->).
  simpl. by rewrite length_replicate.
Qed.

Lemma frontend_init_consistent env st r st' en :
  Z.land (ie_task_status env) CA_M_SUCCESS <> 0 ->
  frontend_init env st = Ok r st' ->
  odb_enabled (odb st') = Some en ->
  (channel_count (odb st) <= length en)%nat ->
  consistent st' (initial_measured (odb st)).
Proof.
  intros Htask Hrun Hen Hlen.
  pose proof (frontend_init_handles _ _ _ _ Htask Hrun) as Hh.
  apply frontend_init_frame in Hrun as (Ho & _ & Hn & _).
  unfold consistent. rewrite Hn, Hh. split; [lia|].
  split; [by exists en|].
  rewrite Ho. simpl. split.
  - eexists. split; [reflexivity|]. unfold channel_count. simpl. lia.
  - split; [done|]. rewrite initial_measured_length. lia.
Qed.

Lemma startable_enabled env st r st' :
  startable st env ->
  frontend_init env st = Ok r st' ->
  exists en, odb_enabled (odb st') = Some en /\
             (channel_count (odb st) <= length en)%nat.
Proof.
  intros Hstart Hrun.
  apply frontend_init_frame in Hrun as (-> & _). simpl.
  eexists. split; [reflexivity|].
  destruct (channel_count (odb st)) as [|k] eqn:Hk; [lia|].
  destruct (Hstart k) as ([x Hx] & _); [lia|].
  unfold odb_lookup in Hx. simpl in Hx.
  apply lookup_lt_Some in Hx. lia.
Qed.

(** C10, as the code has it.  [frontend_init] returns with the time stamp
    still at zero, so when the configured interval is not negative and the
    clock reads more than it, the first call of the loop sweeps at once,
    with no first wait of one interval: before its pause, the call has
    issued a [ca_get] for every channel that holds a handle and is
    enabled, has stored the value of each of them that answered in time,
    and has recorded the time of the end of the sweep. *)
Theorem first_loop_sweeps (o : ODB) (env : init_env) (t : tick) :
  let v := default 10 (odb_update_interval o) in
  startable (initial_state o) env ->
  Z.land (ie_task_status env) CA_M_SUCCESS <> 0 ->
  accepted (tk_replies t) (channel_count o) ->
  0 <= v < ss_millitime (tk_start t) ->
  exists r st st' evs,
    frontend_init env (initial_state o) = Ok r st /\
    last_time_measured st = 0 /\
    epics_loop t st = Ok CM_SUCCESS st' /\
    last_time_measured st' = ss_millitime (tk_end t) /\
    log st' = log st ++ evs ++ [ss_sleep 500] /\
    forall j h,
      (j < channel_count o)%nat ->
      beamline_measured (beamline st) !! j = Some (Some h) ->
      odb_lookup odb_enabled j (odb st) = Some true ->
      In (ca_get h) evs /\
      (gr_pend (tk_replies t j) <> ECA_TIMEOUT ->
       odb_lookup odb_measured j (odb st')
       = Some (gr_value (tk_replies t j))).
Proof.
  intros v Hstart Htask Hacc Hv.
  destruct (frontend_init_returns env _ Hstart) as (r & st & Hinit).
  destruct (startable_enabled _ _ _ _ Hstart Hinit) as (en & Hen & Hlen).
  pose proof (frontend_init_consistent _ _ _ _ _ Htask Hinit Hen Hlen) as Hc.
  pose proof (frontend_init_frame _ _ _ _ Hinit) as (_ & Hlast & Hn & Hint).
  simpl in Hlast, Hn, Hint. fold v in Hint.
  assert (Hclock : ss_millitime (tk_start t) < 2 ^ 32)
    by (unfold ss_millitime, DWORD; apply Z.mod_pos_bound; lia).
  assert (Hdue : sweep_due (tk_start t) st = true).
  { unfold sweep_due. rewrite Hlast, Z.sub_0_r, Hint.
    unfold DWORD at 2. unfold ss_millitime, DWORD in *.
    rewrite Z.mod_mod by lia. rewrite (Z.mod_small v) by lia.
    apply Z.ltb_lt. lia. }
  rewrite <- Hn in Hacc.
  pose proof (consistent_samplable _ _ _ Hc Hacc) as Hall.
  destruct Hc as (_ & _ & (nm & Hnm & Hlnm) & Hm & Hlm).
  eexists r, st, _, _. split; [done|]. split; [done|].
  split; [by apply (epics_loop_sweeps t st _ Hdue Hm)|].
  simpl. split; [done|]. split; [reflexivity|].
  intros j h Hj Hh Henj. rewrite <- Hn in Hj. split.
  - unfold sweep_events. apply in_flat_map. exists j.
    split; [apply in_seq; lia|].
    unfold sample_events. rewrite Hh, Henj.
    destruct (lookup_lt_is_Some_2 nm j) as [name Hname]; [lia|].
    unfold odb_lookup. rewrite Hnm, Hname. simpl. auto.
  - intros Hok. unfold odb_lookup. simpl.
    rewrite sweep_store_inside
      by (apply NoDup_seq || (apply elem_of_seq; lia)).
    unfold sample_value. rewrite Hh, Henj.
    apply Z.eqb_neq in Hok. rewrite Hok. simpl.
    apply list_lookup_insert_eq.
    eapply Nat.lt_le_trans; [exact Hj | exact Hlm].
Qed.

(** *** Which settings a sample reads *)

Lemma epics_get_measured_connection reply i st interval ca_name :
  epics_get_measured reply i
    (set_odb (set_odb_connection interval ca_name) st)
  = on_state (set_odb (set_odb_connection interval ca_name))
             (epics_get_measured reply i st).
Proof.
  unfold epics_get_measured, odb_write_measured. mstep.
  destruct (beamline_measured (beamline st) !! i) as [[h|]|]; simpl;
    try done.
  unfold odb_lookup; simpl.
  destruct (odb_enabled (odb st)) as [en|]; simpl; [|done].
  destruct (en !! i) as [[|]|]; simpl; try done.
  destruct (odb_names (odb st)) as [nm|]; simpl; [|done].
  destruct (nm !! i) as [name|]; simpl; [|done].
  destruct (SEVCHK_aborts (gr_status reply)); simpl; [done|].
  destruct (gr_pend reply =? ECA_TIMEOUT)%Z; simpl; [done|].
  destruct (odb_measured (odb st)) as [m|]; simpl; [|done].
  by case_decide.
Qed.

Lemma epics_sweep_connection replies idx interval ca_name :
  forall st,
    epics_sweep replies idx
      (set_odb (set_odb_connection interval ca_name) st)
    = on_state (set_odb (set_odb_connection interval ca_name))
               (epics_sweep replies idx st).
Proof.
  induction idx as [|i idx IH]; intros st; [done|].
  simpl. unfold bind. rewrite epics_get_measured_connection.
  destruct (epics_get_measured (replies i) i st) as [s st1|]; simpl;
    [apply IH | done].
Qed.

(** C7, as the code has it.  A sweep does not depend on the [CA Name] and
    [Update interval] settings: replacing them in the ODB after
    initialisation changes nothing in what the sweep does.  [Enabled] and
    [Names] are read from the ODB at every sample: a channel that holds a
    handle is skipped when its [Enabled] flag is false at that moment, a
    channel without a handle is never read, and a timeout is reported
    under the name then found in [Names]. *)
Theorem sampling_reads_current_settings
    (replies : nat -> get_reply) (idx : list nat) (st : State)
    (interval : option Z) (ca_name : option (list string)) :
  epics_sweep replies idx (set_odb (set_odb_connection interval ca_name) st)
  = on_state (set_odb (set_odb_connection interval ca_name))
             (epics_sweep replies idx st) /\
  (forall reply channel h,
     beamline_measured (beamline st) !! channel = Some (Some h) ->
     odb_lookup odb_enabled channel (odb st) = Some false ->
     epics_get_measured reply channel st = Ok FE_SUCCESS st) /\
  (forall reply channel,
     beamline_measured (beamline st) !! channel = Some None ->
     epics_get_measured reply channel st = Ok FE_SUCCESS st) /\
  (forall reply channel h name,
     beamline_measured (beamline st) !! channel = Some (Some h) ->
     odb_lookup odb_enabled channel (odb st) = Some true ->
     odb_lookup odb_names channel (odb st) = Some name ->
     SEVCHK_aborts (gr_status reply) = false ->
     gr_pend reply = ECA_TIMEOUT ->
     epics_get_measured reply channel st =
     Ok FE_ERR_HW
        (add_log [ca_get h; ca_pend_io 30;
                  cm_msg "epics_get_measured"
                         ("Timeout on EPICS channel " ++ name)] st)).
Proof.
  split; [apply epics_sweep_connection|].
  unfold epics_get_measured. mstep. repeat split.
  - intros reply channel h Hh Hen. rewrite Hh; simpl. by rewrite Hen.
  - intros reply channel Hh. by rewrite Hh.
  - intros reply channel h name Hh Hen Hnm Hs Hto.
    rewrite Hh; simpl. rewrite Hen; simpl. rewrite Hnm, Hs; simpl.
    apply Z.eqb_eq in Hto. rewrite Hto. simpl. f_equal. state_eq.
Qed.

(** C4, as the code has it.  Sampling one channel returns [FE_SUCCESS] and
    leaves the whole state as it was (nothing read, nothing stored) when
    the channel has no handle, and also when it has one but its [Enabled]
    setting is false at the time of the call.  Otherwise it issues
    [ca_get] and waits with [ca_pend_io(30)]; on a timeout it reports the
    channel under its display name and returns [FE_ERR_HW], storing
    nothing; else it stores the value read in the channel's slot and
    returns [FE_SUCCESS]. *)
Theorem epics_get_measured_cases
    (reply : get_reply) (channel : nat) (st : State) (handle : option chid) :
  beamline_measured (beamline st) !! channel = Some handle ->
  (handle = None ->
     epics_get_measured reply channel st = Ok FE_SUCCESS st) /\
  (odb_lookup odb_enabled channel (odb st) = Some false ->
     epics_get_measured reply channel st = Ok FE_SUCCESS st) /\
  (forall h name,
     handle = Some h ->
     odb_lookup odb_enabled channel (odb st) = Some true ->
     odb_lookup odb_names channel (odb st) = Some name ->
     SEVCHK_aborts (gr_status reply) = false ->
     (gr_pend reply = ECA_TIMEOUT ->
        epics_get_measured reply channel st =
        Ok FE_ERR_HW
           (add_log [ca_get h; ca_pend_io 30;
                     cm_msg "epics_get_measured"
                            ("Timeout on EPICS channel " ++ name)] st)) /\
     (forall m,
        gr_pend reply <> ECA_TIMEOUT ->
        odb_measured (odb st) = Some m ->
        (channel < length m)%nat ->
        epics_get_measured reply channel st =
        Ok FE_SUCCESS
           (set_odb (set_odb_measured (Some (<[channel := gr_value reply]> m)))
              (add_log [ca_get h; ca_pend_io 30] st)))).
Proof.
  intros Hh. unfold epics_get_measured, odb_write_measured. mstep.
  rewrite Hh. simpl. split; [|split].
  - by intros ->.
  - intros Hen. destruct handle; [|done]. by rewrite Hen.
  - intros h name -> Hen Hnm Hs. rewrite Hen. simpl. rewrite Hnm, Hs. simpl.
    split.
    + intros Hto. apply Z.eqb_eq in Hto. rewrite Hto. simpl.
      f_equal. state_eq.
    + intros m Hok Hm Hlt. apply Z.eqb_neq in Hok. rewrite Hok. simpl.
      rewrite Hm. case_decide; [|lia]. f_equal. state_eq.
Qed.

End Properties.

(** ** The statements at work on concrete runs *)

Example sweep_three_channels :
  epics_sweep (tk_replies one_silent) (seq 0 3) three_channels =
  Ok tt
     (add_log [ca_get 1%positive; ca_pend_io 30;
               ca_get 3%positive; ca_pend_io 30;
               cm_msg "epics_get_measured" "Timeout on EPICS channel Temp"]
        (set_odb (set_odb_measured (Some [Float 7; Float 22; Float 33]))
                 three_channels)).
Proof. reflexivity. Qed.

Example poll_three_ticks : poll three_ticks three_channels = [5000; 6100].
Proof. reflexivity. Qed.

Example read_three_channels :
  epics_read three_channels =
  Ok ([Bank "E000" 9 [11; 0; 0; 0; 22; 0; 0; 0; 33; 0; 0; 0]], 32)
     three_channels.
Proof. reflexivity. Qed.

Example init_grown_odb :
  exists st,
    frontend_init all_connect (initial_state grown_odb) = Ok 1 st /\
    beamline_length (beamline st) = 8%nat /\
    odb_measured (odb st) =
      Some [Float 1; Float 2; Float 3; Float 4; Float 5;
            Float 0; Float 0; Float 0].
Proof. eexists. split; [vm_compute; reflexivity | split; reflexivity]. Qed.

Example wrapped_clock_still_due :
  sweep_due (2 ^ 32 + 500) (set_last_time_measured (DWORD (2 ^ 32 - 600))
                              three_channels) = true.
Proof. reflexivity. Qed.

Lemma sweep_isolates_timeout_witness :
  exists st' evs,
    epics_loop one_silent three_channels = Ok CM_SUCCESS st' /\
    odb_lookup odb_measured 2 (odb st')
      = [Float 11; Float 22; Float 33] !! 2%nat /\
    log st' = log three_channels ++ evs /\
    In (cm_msg "epics_get_measured" ("Timeout on EPICS channel " ++ "Temp"))
       evs /\
    forall j hj,
      (j < beamline_length (beamline three_channels))%nat ->
      beamline_measured (beamline three_channels) !! j = Some (Some hj) ->
      odb_lookup odb_enabled j (odb three_channels) = Some true ->
      gr_pend (tk_replies one_silent j) <> ECA_TIMEOUT ->
      odb_lookup odb_measured j (odb st')
        = Some (gr_value (tk_replies one_silent j)).
Proof.
  apply (sweep_isolates_timeout one_silent three_channels
           [Float 11; Float 22; Float 33] 2 3%positive "Temp").
  - unfold consistent. simpl. repeat split; eauto.
  - intros i _. simpl. destruct (decide (i = 2)%nat); reflexivity.
  - reflexivity.
  - simpl. lia.
  - reflexivity.
  - reflexivity.
  - reflexivity.
  - reflexivity.
Defined.

Lemma epics_init_connect_timeout_witness :
  exists st' evs,
    epics_init third_times_out three_channels = Ok FE_ERR_HW st' /\
    log st' = log three_channels ++ evs /\
    (exists before,
       evs = before ++
             [ca_create_channel 2 "UCN:TEMP"; ca_pend_io 5;
              cm_msg "epics_init"
                     ("Cannot connect to EPICS channel " ++ "UCN:TEMP")])
    /\
    (forall j nm, In (ca_create_channel j nm) evs -> (j <= 2)%nat) /\
    (forall j, (2 < j < beamline_length (beamline three_channels))%nat ->
               beamline_measured (beamline st') !! j = Some None) /\
    (forall j, (j < 2)%nat -> connects three_channels j = true ->
               beamline_measured (beamline st') !! j
               = Some (cr_chid (ie_connect third_times_out j))).
Proof.
  apply (epics_init_connect_timeout third_times_out three_channels 2
           "UCN:TEMP").
  - vm_compute. discriminate.
  - intros j Hj. simpl in Hj.
    destruct j as [|[|[|j]]]; [| | | lia]; vm_compute; eauto.
  - simpl. lia.
  - reflexivity.
  - reflexivity.
  - discriminate.
  - reflexivity.
  - intros j Hj _.
    destruct j as [|[|j]]; [| | lia]; vm_compute; discriminate.
Defined.

Lemma sweeps_spaced_witness :
  spaced (beamline_updateInterval (beamline three_channels))
         (poll three_ticks three_channels) /\
  (forall t s,
     sweep_due (tk_start t) s = false ->
     epics_loop t s = Ok CM_SUCCESS (add_log [ss_sleep 500] s)) /\
  (forall t s r s',
     epics_loop t s = Ok r s' ->
     exists evs : list event, log s' = evs ++ [ss_sleep 500]).
Proof.
  apply (sweeps_spaced three_ticks three_channels 0).
  simpl. lia.
Defined.

Lemma epics_get_measured_cases_witness :
  (Some 1%positive = None ->
     epics_get_measured (answer 7) 0 three_channels
     = Ok FE_SUCCESS three_channels) /\
  (odb_lookup odb_enabled 0 (odb three_channels) = Some false ->
     epics_get_measured (answer 7) 0 three_channels
     = Ok FE_SUCCESS three_channels) /\
  (forall h name,
     Some 1%positive = Some h ->
     odb_lookup odb_enabled 0 (odb three_channels) = Some true ->
     odb_lookup odb_names 0 (odb three_channels) = Some name ->
     SEVCHK_aborts (gr_status (answer 7)) = false ->
     (gr_pend (answer 7) = ECA_TIMEOUT ->
        epics_get_measured (answer 7) 0 three_channels =
        Ok FE_ERR_HW
           (add_log [ca_get h; ca_pend_io 30;
                     cm_msg "epics_get_measured"
                            ("Timeout on EPICS channel " ++ name)]
                    three_channels)) /\
     (forall m,
        gr_pend (answer 7) <> ECA_TIMEOUT ->
        odb_measured (odb three_channels) = Some m ->
        (0 < length m)%nat ->
        epics_get_measured (answer 7) 0 three_channels =
        Ok FE_SUCCESS
           (set_odb (set_odb_measured
                       (Some (<[0%nat := gr_value (answer 7)]> m)))
              (add_log [ca_get h; ca_pend_io 30] three_channels)))).
Proof.
  apply (epics_get_measured_cases (answer 7) 0 three_channels
           (Some 1%positive)).
  reflexivity.
Defined.

Lemma epics_read_record_witness :
  exists data,
    epics_read three_channels =
      Ok ([Bank "E000" TID_FLOAT data], bk_size [Bank "E000" TID_FLOAT data])
         three_channels /\
    data = flat_map float_bytes (take 3 [Float 11; Float 22; Float 33]) /\
    length data = (4 * 3)%nat /\
    (forall i, (i < 3)%nat ->
       exists f, [Float 11; Float 22; Float 33] !! i = Some f /\
                 take 4 (drop (4 * i) data) = float_bytes f) /\
    (3%nat = 0%nat -> data = []).
Proof.
  apply (epics_read_record three_channels [Float 11; Float 22; Float 33]).
  - reflexivity.
  - simpl. lia.
Defined.

Lemma grown_odb_startable : startable (initial_state grown_odb) all_connect.
Proof.
  intros j Hj. simpl in Hj.
  do 8 (destruct j as [|j]; [vm_compute; eauto|]). vm_compute in Hj. lia.
Defined.

Lemma frontend_init_measured_witness :
  exists r st',
    frontend_init all_connect (initial_state grown_odb) = Ok r st' /\
    let n := beamline_length (beamline st') in
    n = channel_count (odb (initial_state grown_odb)) /\
    (odb_measured (odb (initial_state grown_odb)) = None ->
       odb_measured (odb st') = Some (replicate n float_zero)) /\
    (forall m,
       odb_measured (odb (initial_state grown_odb)) = Some m ->
       (length m <= n)%nat ->
       odb_measured (odb st') =
         Some (m ++ replicate (n - length m) float_zero)).
Proof.
  apply (frontend_init_measured all_connect (initial_state grown_odb)).
  apply grown_odb_startable.
Defined.

Lemma two_channel_odb_startable :
  startable (initial_state two_channel_odb) all_connect.
Proof.
  intros j Hj. simpl in Hj.
  do 2 (destruct j as [|j]; [vm_compute; eauto|]). vm_compute in Hj. lia.
Defined.

Lemma epics_read_before_first_sweep_witness :
  exists r st' data,
    frontend_init all_connect (initial_state two_channel_odb) = Ok r st' /\
    epics_read st' =
      Ok ([Bank "E000" TID_FLOAT data], bk_size [Bank "E000" TID_FLOAT data])
         st' /\
    data = flat_map float_bytes
             (initial_measured (odb (initial_state two_channel_odb))) /\
    (odb_measured (odb (initial_state two_channel_odb)) = None ->
       data = replicate (4 * beamline_length (beamline st')) 0) /\
    (forall m,
       odb_measured (odb (initial_state two_channel_odb)) = Some m ->
       data = flat_map float_bytes
                (odb_resize (beamline_length (beamline st')) m)).
Proof.
  apply (epics_read_before_first_sweep all_connect
           (initial_state two_channel_odb)).
  apply two_channel_odb_startable.
Defined.

Lemma loop_pause_fixed_witness :
  exists st' evs,
    epics_loop one_silent three_channels = Ok CM_SUCCESS st' /\
    log st' = log three_channels ++ evs ++ [ss_sleep 500] /\
    (forall ms, ~ In (ss_sleep ms) evs) /\
    beamline_updateInterval (beamline st') =
      beamline_updateInterval (beamline three_channels).
Proof.
  apply (loop_pause_fixed one_silent three_channels
           [Float 11; Float 22; Float 33]).
  - unfold consistent. simpl. repeat split; eauto.
  - intros i _. simpl. destruct (decide (i = 2)%nat); reflexivity.
Defined.

Lemma second_silent_accepted : accepted (tk_replies second_silent) 2.
Proof. intros i _. simpl. destruct (decide (i = 1)%nat); reflexivity. Defined.

Lemma first_loop_sweeps_witness :
  exists r st st' evs,
    frontend_init all_connect (initial_state two_channel_odb) = Ok r st /\
    last_time_measured st = 0 /\
    epics_loop second_silent st = Ok CM_SUCCESS st' /\
    last_time_measured st' = ss_millitime (tk_end second_silent) /\
    log st' = log st ++ evs ++ [ss_sleep 500] /\
    forall j h,
      (j < channel_count two_channel_odb)%nat ->
      beamline_measured (beamline st) !! j = Some (Some h) ->
      odb_lookup odb_enabled j (odb st) = Some true ->
      In (ca_get h) evs /\
      (gr_pend (tk_replies second_silent j) <> ECA_TIMEOUT ->
       odb_lookup odb_measured j (odb st')
       = Some (gr_value (tk_replies second_silent j))).
Proof.
  apply (first_loop_sweeps two_channel_odb all_connect second_silent).
  - apply two_channel_odb_startable.
  - vm_compute. discriminate.
  - apply second_silent_accepted.
  - vm_compute. split; [discriminate | reflexivity].
Defined.

(** ** Where the code departs from the statements as first written *)

(** C4.  A channel that holds a handle but whose [Enabled] flag has been
    cleared since initialisation is not read: the call returns
    [FE_SUCCESS] with the state untouched, and no [ca_get] has been
    issued for the handle. *)
Lemma handle_but_disabled_not_read :
  frontend_init all_connect (initial_state two_channel_odb) = Ok 1 started /\
  beamline_measured (beamline disabled_after_start) !! 0%nat
    = Some (Some 1%positive) /\
  epics_get_measured (answer 7) 0 disabled_after_start
    = Ok FE_SUCCESS disabled_after_start /\
  odb_measured (odb disabled_after_start) = Some [Float 0; Float 0] /\
  ~ In (ca_get 1%positive) (log disabled_after_start).
Proof.
  split; [vm_compute; reflexivity|].
  repeat split.
  vm_compute. intuition discriminate.
Qed.

(** C7.  Two runs with the same initialisation and the same answers from
    the channels, the second with [Enabled] and [Names] changed in the ODB
    after initialisation: the first reads channel 0 and stores 7, the
    second does not read it; the timeout of channel 1 is reported as
    [Temp] in the first and as [T2] in the second. *)
Lemma settings_change_alters_sampling :
  exists sa sb,
    frontend_init all_connect (initial_state two_channel_odb) = Ok 1 started /\
    epics_loop second_silent
      (set_odb (tk_odb second_silent) started) = Ok 1 sa /\
    epics_loop second_silent_reconfigured
      (set_odb (tk_odb second_silent_reconfigured) started) = Ok 1 sb /\
    odb_measured (odb sa) = Some [Float 7; Float 0] /\
    odb_measured (odb sb) = Some [Float 0; Float 0] /\
    In (ca_get 1%positive) (log sa) /\
    ~ In (ca_get 1%positive) (log sb) /\
    In (cm_msg "epics_get_measured" "Timeout on EPICS channel Temp") (log sa) /\
    In (cm_msg "epics_get_measured" "Timeout on EPICS channel T2") (log sb).
Proof.
  eexists _, _.
  split; [vm_compute; reflexivity|].
  split; [vm_compute; reflexivity|].
  split; [vm_compute; reflexivity|].
  split; [reflexivity|]. split; [reflexivity|].
  split; [find_in|].
  split; [simpl; intuition discriminate|].
  split; find_in.
Qed.

(** C8.  With a [Measured] array left in the ODB by an earlier run, the
    record read out before any sweep holds the old values, not zeros. *)
Lemma stale_record_before_first_sweep :
  exists st,
    frontend_init all_connect (initial_state restarted_odb) = Ok 1 st /\
    (forall h, ~ In (ca_get h) (log st)) /\
    epics_read st =
      Ok ([Bank "E000" 9 [219; 15; 73; 64; 1; 0; 0; 0]], 24) st /\
    [219; 15; 73; 64; 1; 0; 0; 0] <> replicate 8 0.
Proof.
  eexists. split; [vm_compute; reflexivity|].
  split; [intros h; simpl; intuition discriminate|].
  split; [vm_compute; reflexivity | discriminate].
Qed.

(** C9.  With the default settings the update interval is 10 and the pause
    is 500: the pause is not smaller than the sampling interval. *)
Lemma pause_exceeds_default_interval :
  exists st st',
    frontend_init all_connect (initial_state empty_odb) = Ok 1 st /\
    beamline_updateInterval (beamline st) = 10 /\
    epics_loop second_silent st = Ok 1 st' /\
    log st' = [ca_task_initialize; ss_sleep 500] /\
    ~ 500 < beamline_updateInterval (beamline st).
Proof.
  eexists _, _.
  split; [vm_compute; reflexivity|].
  split; [reflexivity|].
  split; [vm_compute; reflexivity|].
  split; [reflexivity | simpl; lia].
Qed.

(** C10.  With [Update interval] set to -1 the clock reads more than the
    configured interval at the first call (5000 against -1), yet the call
    does not sweep: the unsigned interval is [2^32 - 1].  The call only
    pauses; nothing is read, [Measured] and the time stamp stay as they
    were. *)
Lemma first_loop_idle_with_negative_interval :
  exists st st',
    frontend_init all_connect (initial_state negative_interval_odb)
      = Ok 1 st /\
    odb_update_interval (odb st) = Some (-1) /\
    -1 < ss_millitime (tk_start second_silent) /\
    sweep_due (tk_start second_silent) st = false /\
    epics_loop second_silent st = Ok 1 st' /\
    log st' = log st ++ [ss_sleep 500] /\
    (forall h, ~ In (ca_get h) (log st')) /\
    last_time_measured st' = 0 /\
    odb_measured (odb st') = odb_measured (odb st).
Proof.
  eexists _, _.
  split; [vm_compute; reflexivity|].
  split; [reflexivity|].
  split; [vm_compute; reflexivity|].
  split; [vm_compute; reflexivity|].
  split; [vm_compute; reflexivity|].
  split; [reflexivity|].
  split; [intros h; simpl; intuition discriminate|].
  split; reflexivity.
Qed.

(** ** Further properties of the source *)

Section Further.

Context `{Headers}.

(** *** [epics_init] *)

Lemma epics_init_loop_status env idx :
  forall status st r st',
    (forall j, In j idx -> connects st j = true ->
               cr_pend (ie_connect env j) <> ECA_TIMEOUT) ->
    epics_init_loop env idx status st = Ok r st' ->
    r = last_status st env idx status.
Proof.
  induction idx as [|i idx IH]; intros status st r st' Hin; simpl.
  { by intros [= <- _]. }
  assert (Hi := Hin i (or_introl eq_refl)).
  assert (Hrest : forall j, In j idx -> connects st j = true ->
                    cr_pend (ie_connect env j) <> ECA_TIMEOUT)
    by (intros j Hj; apply Hin; by right).
  change (last_status st env (i :: idx) status)
    with (last_status st env idx
            (if connects st i then cr_status (ie_connect env i) else status)).
  unfold connects in Hi |- *. mstep.
  destruct (odb_lookup odb_enabled i (odb st)) as [[|]|]; simpl;
    [| by apply IH | done].
  destruct (odb_lookup odb_ca_name i (odb st)) as [name|]; simpl; [|done].
  destruct (String.eqb name EmptyString); simpl; [by apply IH|].
  destruct (SEVCHK_aborts _); simpl; [done|].
  destruct (cr_pend (ie_connect env i) =? ECA_TIMEOUT)%Z eqn:E.
  { apply Z.eqb_eq in E. by destruct Hi. }
  intros Hloop. apply IH in Hloop; [exact Hloop | exact Hrest].
Qed.

Lemma connect_handles_skip st env idx hs j :
  connects st j = false -> connect_handles st env idx hs !! j = hs !! j.
Proof.
  intros Hj. revert hs. induction idx as [|i idx IH]; intros hs; [done|].
  change (connect_handles st env (i :: idx) hs)
    with (connect_handles st env idx
            (if connects st i then <[i := cr_chid (ie_connect env i)]> hs
             else hs)).
  rewrite IH. destruct (connects st i) eqn:Hi; [|done].
  apply list_lookup_insert_ne. intros ->. congruence.
Qed.

Lemma epics_init_loop_unconnected env idx j :
  forall status st r st',
    connects st j = false ->
    epics_init_loop env idx status st = Ok r st' ->
    beamline_measured (beamline st') !! j
    = beamline_measured (beamline st) !! j.
Proof.
  induction idx as [|i idx IH]; intros status st r st' Hj; simpl.
  { by intros [= _ <-]. }
  unfold connects in Hj. mstep.
  destruct (odb_lookup odb_enabled i (odb st)) as [[|]|] eqn:Hen; simpl;
    [| by apply IH | done].
  destruct (odb_lookup odb_ca_name i (odb st)) as [name|] eqn:Hnm; simpl;
    [|done].
  destruct (String.eqb name EmptyString) eqn:Hname; simpl; [by apply IH|].
  assert (i <> j) as Hne.
  { intros ->. rewrite Hen, Hnm, Hname in Hj. done. }
  destruct (SEVCHK_aborts _); simpl; [done|].
  destruct (cr_pend (ie_connect env i) =? ECA_TIMEOUT)%Z; simpl.
  - intros [= _ <-]. simpl. by apply list_lookup_insert_ne.
  - intros Hloop. apply IH in Hloop; [|done].
    rewrite Hloop. simpl. by apply list_lookup_insert_ne.
Qed.

(** X1.  When [ca_task_initialize] fails, [frontend_init] returns
    [FE_ERR_HW] and reports it: by then the settings have their defaults
    and [Measured] its size, but no channel has been created and the
    handle array has not been allocated. *)
Theorem frontend_init_driver_failure (env : init_env) (st : State) :
  Z.land (ie_task_status env) CA_M_SUCCESS = 0 ->
  exists st',
    frontend_init env st = Ok FE_ERR_HW st' /\
    log st' = log st ++ [ca_task_initialize;
                         cm_msg "epics_init" "Unable to initialize EPICS"] /\
    beamline_measured (beamline st') = beamline_measured (beamline st) /\
    beamline_length (beamline st') = channel_count (odb st) /\
    odb st' = set_odb_measured (Some (initial_measured (odb st)))
                (connect_settings (odb st)).
Proof.
  intros Htask. unfold frontend_init, epics_init. mstep.
  apply Z.eqb_eq in Htask. rewrite Htask. eexists. split; [reflexivity|].
  simpl. rewrite <- app_assoc. repeat split.
  unfold initial_measured, channel_count.
  by destruct (odb_measured (odb st)).
Qed.

(** X2.  When the driver starts and no connect times out, [epics_init]
    goes through all channels: it issues [ca_create_channel] and
    [ca_pend_io(5)] for exactly the enabled channels with a [CA Name], in
    index order; those get the handle Channel Access gave, all others a
    null handle; and the value returned is the status of the last
    [ca_create_channel] (that of [ca_task_initialize] when there was
    none). *)
Theorem epics_init_all_connected (env : init_env) (st : State) :
  let n := beamline_length (beamline st) in
  Z.land (ie_task_status env) CA_M_SUCCESS <> 0 ->
  (forall j, (j < n)%nat -> connectable st env j) ->
  all_in_time st env n ->
  exists st',
    epics_init env st =
      Ok (last_status st env (seq 0 n) (ie_task_status env)) st' /\
    log st' = log st ++
              ca_task_initialize :: flat_map (connect_events st) (seq 0 n) /\
    length (beamline_measured (beamline st')) = n /\
    (forall j, (j < n)%nat ->
       beamline_measured (beamline st') !! j
       = Some (if connects st j then cr_chid (ie_connect env j) else None)) /\
    odb st' = odb st.
Proof.
  intros n Htask Hall Htime.
  destruct (epics_init_returns env st Hall) as (r & st' & Hrun).
  exists st'. revert Hrun. unfold epics_init. mstep.
  apply Z.eqb_neq in Htask. rewrite Htask.
  change (beamline_length (beamline (add_log [ca_task_initialize] st)))
    with n.
  set (st0 := set_beamline _ _). intros Hrun.
  assert (Hr : r = last_status st env (seq 0 n) (ie_task_status env)).
  { apply (epics_init_loop_status env (seq 0 n) _ st0 r st'); [|done].
    intros j Hj. apply in_seq in Hj. apply Htime. lia. }
  subst r. split; [done|].
  destruct (epics_init_loop_prefix env (seq 0 n) [] (ie_task_status env) st0)
    as [s' Hpre].
  { intros j Hj. apply in_seq in Hj. split; [apply (Hall j); lia|].
    apply Htime. lia. }
  rewrite app_nil_r in Hpre. rewrite Hpre in Hrun. simpl in Hrun.
  injection Hrun as _ <-. simpl.
  split; [by rewrite <- app_assoc|].
  split; [by rewrite connect_handles_length, length_replicate|].
  split; [|done].
  intros j Hj. destruct (connects st j) eqn:Hc.
  - apply connect_handles_inside; try done.
    + apply List.seq_NoDup.
    + apply in_seq; lia.
    + rewrite length_replicate; lia.
  - rewrite connect_handles_skip by done. by apply lookup_replicate_2.
Qed.

(** X3.  A channel that is disabled or has no [CA Name] when [epics_init]
    runs gets a null handle, whatever happens to the other channels, and
    is never read afterwards: whatever the settings become later,
    sampling it returns [FE_SUCCESS] and leaves everything as it is. *)
Theorem unconnected_never_read (env : init_env) (st : State) :
  let n := beamline_length (beamline st) in
  Z.land (ie_task_status env) CA_M_SUCCESS <> 0 ->
  (forall j, (j < n)%nat -> connectable st env j) ->
  exists r st',
    epics_init env st = Ok r st' /\
    forall j, (j < n)%nat -> connects st j = false ->
      beamline_measured (beamline st') !! j = Some None /\
      forall (f : ODB -> ODB) (reply : get_reply),
        epics_get_measured reply j (set_odb f st')
        = Ok FE_SUCCESS (set_odb f st').
Proof.
  intros n Htask Hall.
  destruct (epics_init_returns env st Hall) as (r & st' & Hrun).
  exists r, st'. split; [done|]. intros j Hj Hc.
  assert (Hnull : beamline_measured (beamline st') !! j = Some None).
  { revert Hrun. unfold epics_init. mstep.
    apply Z.eqb_neq in Htask. rewrite Htask. intros Hrun.
    apply (epics_init_loop_unconnected env _ j) in Hrun; [|done].
    rewrite Hrun. simpl. by apply lookup_replicate_2. }
  split; [done|]. intros f reply.
  unfold epics_get_measured. mstep. by rewrite Hnull.
Qed.

(** *** The loop and the readout *)

Lemma epics_get_measured_odb reply i st status st' :
  epics_get_measured reply i st = Ok status st' ->
  odb_update_interval (odb st') = odb_update_interval (odb st) /\
  odb_names (odb st') = odb_names (odb st) /\
  odb_ca_name (odb st') = odb_ca_name (odb st) /\
  odb_enabled (odb st') = odb_enabled (odb st) /\
  option_map length (odb_measured (odb st'))
  = option_map length (odb_measured (odb st)).
Proof.
  unfold epics_get_measured, odb_write_measured. mstep.
  destruct (beamline_measured (beamline st) !! i) as [[h|]|]; simpl;
    [| by intros [= _ <-] | done].
  destruct (odb_lookup odb_enabled i (odb st)) as [[|]|]; simpl;
    [| by intros [= _ <-] | done].
  destruct (odb_lookup odb_names i (odb st)); simpl; [|done].
  destruct (SEVCHK_aborts (gr_status reply)); simpl; [done|].
  destruct (gr_pend reply =? ECA_TIMEOUT)%Z; simpl; [by intros [= _ <-]|].
  destruct (odb_measured (odb st)) as [m|] eqn:Hm; simpl; [|done].
  case_decide; simpl; [|done].
  intros [= _ <-]. simpl. by rewrite length_insert.
Qed.

Lemma epics_sweep_odb replies idx :
  forall st u st',
    epics_sweep replies idx st = Ok u st' ->
    odb_update_interval (odb st') = odb_update_interval (odb st) /\
    odb_names (odb st') = odb_names (odb st) /\
    odb_ca_name (odb st') = odb_ca_name (odb st) /\
    odb_enabled (odb st') = odb_enabled (odb st) /\
    option_map length (odb_measured (odb st'))
    = option_map length (odb_measured (odb st)).
Proof.
  induction idx as [|i idx IH]; intros st u st'; simpl.
  { by intros [= _ <-]. }
  unfold bind at 1.
  destruct (epics_get_measured (replies i) i st) as [s st1|] eqn:E; [|done].
  intros Hrest. apply IH in Hrest as (-> & -> & -> & -> & ->).
  by apply epics_get_measured_odb in E.
Qed.

(** X4.  A call of the loop that returns has changed neither [beamline]
    (channel count, handles, update interval) nor any setting in the ODB,
    and [Measured] is still there with the same number of slots: the loop
    only overwrites values. *)
Theorem epics_loop_keeps_configuration
    (t : tick) (st : State) (r : Z) (st' : State) :
  epics_loop t st = Ok r st' ->
  beamline st' = beamline st /\
  odb_update_interval (odb st') = odb_update_interval (odb st) /\
  odb_names (odb st') = odb_names (odb st) /\
  odb_ca_name (odb st') = odb_ca_name (odb st) /\
  odb_enabled (odb st') = odb_enabled (odb st) /\
  option_map length (odb_measured (odb st'))
  = option_map length (odb_measured (odb st)).
Proof.
  unfold epics_loop. mstep.
  destruct (sweep_due (tk_start t) st).
  - destruct (epics_sweep _ _ st) as [u st1|] eqn:E; [|done].
    simpl. intros [= _ <-]. simpl.
    split; [by apply epics_sweep_frame in E as [? _]|].
    by apply epics_sweep_odb in E.
  - by intros [= _ <-].
Qed.

(** X5.  In a sweep, the slot of a channel that is not read successfully
    keeps its value: a channel without handle, a channel whose [Enabled]
    flag is false, a channel whose read times out, and any slot of
    [Measured] beyond the channel count. *)
Theorem sweep_leaves_unread_slots (t : tick) (st : State) (m : list float) :
  let n := beamline_length (beamline st) in
  consistent st m ->
  accepted (tk_replies t) n ->
  sweep_due (tk_start t) st = true ->
  exists st',
    epics_loop t st = Ok CM_SUCCESS st' /\
    forall j,
      (n <= j)%nat \/
      beamline_measured (beamline st) !! j = Some None \/
      odb_lookup odb_enabled j (odb st) = Some false \/
      gr_pend (tk_replies t j) = ECA_TIMEOUT ->
      odb_lookup odb_measured j (odb st') = m !! j.
Proof.
  intros n Hc Hacc Hdue.
  pose proof (consistent_samplable _ _ _ Hc Hacc) as Hall.
  destruct Hc as (_ & _ & _ & Hm & _).
  eexists. split; [by apply (epics_loop_sweeps t st m)|].
  intros j Hj. unfold odb_lookup. simpl.
  destruct (decide (j < n)%nat) as [Hlt|Hge].
  - rewrite sweep_store_inside
      by (apply NoDup_seq || (apply elem_of_seq; lia)).
    unfold sample_value.
    destruct Hj as [?|[->|[->|Hto]]]; [lia|done| |].
    + by destruct (beamline_measured (beamline st) !! j) as [[?|]|].
    + apply Z.eqb_eq in Hto. rewrite Hto.
      destruct (beamline_measured (beamline st) !! j) as [[?|]|]; try done.
      by destruct (odb_lookup odb_enabled j (odb st)) as [[|]|].
  - apply sweep_store_outside. rewrite elem_of_seq. lia.
Qed.

(** X6.  The errors a sweep reports are exactly the timeouts: one
    [cm_msg] from [epics_get_measured] for each channel that has a handle,
    is enabled and whose read timed out, under the channel's name, and no
    other [cm_msg]. *)
Theorem sweep_reports_timeouts_only
    (t : tick) (st : State) (m : list float) :
  let n := beamline_length (beamline st) in
  consistent st m ->
  accepted (tk_replies t) n ->
  sweep_due (tk_start t) st = true ->
  exists st' evs,
    epics_loop t st = Ok CM_SUCCESS st' /\
    log st' = log st ++ evs /\
    forall routine message,
      In (cm_msg routine message) evs <->
      exists j h name,
        (j < n)%nat /\
        beamline_measured (beamline st) !! j = Some (Some h) /\
        odb_lookup odb_enabled j (odb st) = Some true /\
        odb_lookup odb_names j (odb st) = Some name /\
        gr_pend (tk_replies t j) = ECA_TIMEOUT /\
        routine = "epics_get_measured" /\
        message = ("Timeout on EPICS channel " ++ name)%string.
Proof.
  intros n Hc Hacc Hdue.
  pose proof (consistent_samplable _ _ _ Hc Hacc) as Hall.
  destruct Hc as (_ & _ & _ & Hm & _).
  eexists _, _. split; [by apply (epics_loop_sweeps t st m)|].
  split; [reflexivity|]. fold n.
  intros routine message. rewrite in_app_iff. unfold sweep_events.
  rewrite in_flat_map. split.
  - intros [(j & Hj & Hin)|[[=]|[]]]. apply in_seq in Hj.
    unfold sample_events in Hin.
    destruct (beamline_measured (beamline st) !! j) as [[h|]|] eqn:Hh;
      try done.
    destruct (odb_lookup odb_enabled j (odb st)) as [[|]|] eqn:Hen;
      try done.
    destruct (odb_lookup odb_names j (odb st)) as [name|] eqn:Hnm;
      try done.
    destruct (gr_pend (tk_replies t j) =? ECA_TIMEOUT)%Z eqn:Hto;
      simpl in Hin.
    + destruct Hin as [[=]|[[=]|[[= <- <-]|[]]]].
      apply Z.eqb_eq in Hto. exists j, h, name.
      repeat split; try done. lia.
    + destruct Hin as [[=]|[[=]|[]]].
  - intros (j & h & name & Hj & Hh & Hen & Hnm & Hto & -> & ->).
    left. exists j. split; [apply in_seq; lia|].
    unfold sample_events. rewrite Hh, Hen, Hnm.
    apply Z.eqb_eq in Hto. rewrite Hto. simpl. auto.
Qed.

Lemma epics_read_loop_pure idx :
  forall pdata st x st',
    epics_read_loop idx pdata st = Ok x st' -> st' = st.
Proof.
  induction idx as [|i idx IH]; intros pdata st x st'; simpl.
  { by intros [= _ <-]. }
  mstep. destruct (odb_lookup odb_measured i (odb st)); simpl; [|done].
  apply IH.
Qed.

(** X7.  The readout routine only reads: when it returns, the state
    (ODB, handles, time stamp, log) is what it was, so a second readout
    with no sweep in between returns the same event. *)
Theorem epics_read_only_reads
    (st : State) (event : list bank * Z) (st' : State) :
  epics_read st = Ok event st' ->
  st' = st /\ epics_read st' = Ok event st'.
Proof.
  intros Hread.
  assert (st' = st) as ->; [|done].
  revert Hread. unfold epics_read. mstep.
  destruct (epics_read_loop _ _ st) as [pdata st1|] eqn:E; [|done].
  apply epics_read_loop_pure in E as ->. by intros [= _ <-].
Qed.

(** X8.  Sweep, then readout: the event read out after a sweep carries,
    in the slot of every channel that was read successfully, the four
    bytes of the value that channel answered. *)
Theorem readout_after_sweep (t : tick) (st : State) (m : list float) :
  let n := beamline_length (beamline st) in
  consistent st m ->
  accepted (tk_replies t) n ->
  sweep_due (tk_start t) st = true ->
  exists st' data,
    epics_loop t st = Ok CM_SUCCESS st' /\
    epics_read st' =
      Ok ([Bank "E000" TID_FLOAT data], bk_size [Bank "E000" TID_FLOAT data])
         st' /\
    length data = (4 * n)%nat /\
    forall j h,
      (j < n)%nat ->
      beamline_measured (beamline st) !! j = Some (Some h) ->
      odb_lookup odb_enabled j (odb st) = Some true ->
      gr_pend (tk_replies t j) <> ECA_TIMEOUT ->
      take 4 (drop (4 * j) data) = float_bytes (gr_value (tk_replies t j)).
Proof.
  intros n Hc Hacc Hdue.
  pose proof (consistent_samplable _ _ _ Hc Hacc) as Hall.
  destruct Hc as (_ & _ & _ & Hm & Hlm).
  set (m' := sweep_store st (tk_replies t) (seq 0 n) m).
  assert (Hlen : length m' = length m) by apply sweep_store_length.
  eexists _, (flat_map float_bytes (take n m')).
  split; [by apply (epics_loop_sweeps t st m)|].
  split; [|split].
  - unfold epics_read. mstep.
    rewrite (epics_read_loop_run _ m') by (done || (simpl; lia)).
    by rewrite drop_0.
  - rewrite flat_map_float_bytes_length, length_take. lia.
  - intros j h Hj Hh Hen Hok.
    apply flat_map_float_bytes_slot. rewrite lookup_take_lt by done.
    subst m'. rewrite sweep_store_inside
      by (apply NoDup_seq || (apply elem_of_seq; lia)).
    unfold sample_value. rewrite Hh, Hen.
    apply Z.eqb_neq in Hok. rewrite Hok. simpl.
    apply list_lookup_insert_eq. lia.
Qed.

(** *** The clock *)

(** X9.  The test of the loop measures the elapsed time exactly across
    the wrap of the 32-bit clock: with the time stamp taken at [from] and
    the clock read [d] milliseconds later, [d] below [2^32], a sweep is due
    if and only if [d] exceeds the update interval. *)
Theorem sweep_due_exact (st : State) (from d : Z) :
  last_time_measured st = ss_millitime from ->
  0 <= d < 2 ^ 32 ->
  sweep_due (from + d) st = (beamline_updateInterval (beamline st) <? d).
Proof.
  intros Hlast Hd. unfold sweep_due. rewrite Hlast.
  unfold ss_millitime, DWORD. rewrite <- Zminus_mod. replace (from + d - from) with d by lia.
  by rewrite Z.mod_small.
Qed.

(** X10.  A negative [Update interval] [v] is stored in the unsigned
    [beamline.updateInterval] as [2^32 + v]; with [v = -1] no sweep is
    ever due, whatever the clock and the time stamp are. *)
Theorem negative_update_interval (env : init_env) (st : State) (v : Z) :
  startable st env ->
  odb_update_interval (odb st) = Some v ->
  - 2 ^ 31 <= v < 0 ->
  exists r st',
    frontend_init env st = Ok r st' /\
    beamline_updateInterval (beamline st') = 2 ^ 32 + v /\
    (v = -1 ->
     forall time s, beamline s = beamline st' -> sweep_due time s = false).
Proof.
  intros Hstart Hv Hrange.
  destruct (frontend_init_returns env st Hstart) as (r & st' & Hrun).
  exists r, st'. split; [done|].
  apply frontend_init_frame in Hrun as (_ & _ & _ & Hint).
  rewrite Hv in Hint. simpl in Hint.
  assert (Hwrap : DWORD v = 2 ^ 32 + v).
  { unfold DWORD. symmetry. apply (Z.mod_unique v (2 ^ 32) (-1)); lia. }
  split; [congruence|].
  intros -> time s Hs. unfold sweep_due. rewrite Hs, Hint, Hwrap.
  apply Z.ltb_ge. unfold DWORD.
  pose proof (Z.mod_pos_bound (ss_millitime time - last_time_measured s)
                (2 ^ 32)). lia.
Qed.

Lemma poll_spans_starts ticks :
  forall st, map fst (poll_spans ticks st) = poll ticks st.
Proof.
  induction ticks as [|t rest IH]; intros st; [done|].
  simpl. destruct (epics_loop t _) as [r st'|].
  - rewrite map_app, IH. by destruct (sweep_due _ _).
  - by destruct (sweep_due _ _).
Qed.

Lemma poll_spans_from ticks :
  forall st from,
    last_time_measured st = ss_millitime from ->
    chronological from ticks ->
    match poll_spans ticks st with
    | [] => True
    | s :: _ => beamline_updateInterval (beamline st) < fst s - from
    end /\
    rested (beamline_updateInterval (beamline st)) (poll_spans ticks st).
Proof.
  induction ticks as [|t rest IH]; intros st from Hlast Hchron; [done|].
  destruct Hchron as (Hs & He & Hrest).
  simpl poll_spans. set (st1 := set_odb (tk_odb t) st).
  assert (Hlast1 : last_time_measured st1 = ss_millitime from) by done.
  destruct (sweep_due (tk_start t) st1) eqn:Hdue.
  - pose proof (sweep_due_elapsed _ _ _ Hlast1 Hs Hdue) as Hgap.
    destruct (epics_loop t st1) as [r st'|] eqn:Hloop; [|done].
    apply epics_loop_frame in Hloop as (Hb & Hl & _).
    change (beamline st1) with (beamline st) in *. rewrite Hdue in Hl.
    destruct (IH st' (tk_end t) Hl Hrest) as [Hhead Hsp].
    rewrite Hb in Hhead, Hsp. simpl. repeat split; done.
  - destruct (epics_loop t st1) as [r st'|] eqn:Hloop; [|done].
    apply epics_loop_frame in Hloop as (Hb & Hl & _).
    change (beamline st1) with (beamline st) in *. rewrite Hdue in Hl.
    simpl. rewrite <- Hb. apply IH; [congruence|].
    apply (chronological_earlier (tk_end t)); [lia | done].
Qed.

(** X11.  The interval is counted from the end of a sweep: in every run
    over ticks in the order of time, each sweep starts more than one
    update interval after the time recorded at the end of the sweep
    before it, so the time a sweep takes adds to the period. *)
Theorem sweeps_rested (ticks : list tick) (st : State) (from : Z) :
  chronological from ticks ->
  rested (beamline_updateInterval (beamline st)) (poll_spans ticks st) /\
  map fst (poll_spans ticks st) = poll ticks st.
Proof.
  intros Hchron. split; [|apply poll_spans_starts].
  revert st from Hchron.
  induction ticks as [|t rest IH]; intros st from Hchron; [done|].
  destruct Hchron as (Hs & He & Hrest).
  simpl poll_spans. set (st1 := set_odb (tk_odb t) st).
  destruct (epics_loop t st1) as [r st'|] eqn:Hloop;
    [|by destruct (sweep_due _ _)].
  apply epics_loop_frame in Hloop as (Hb & Hl & _).
  change (beamline st1) with (beamline st) in *.
  destruct (sweep_due (tk_start t) st1).
  - destruct (poll_spans_from rest st' (tk_end t) Hl Hrest) as [Hhead Hsp].
    rewrite Hb in Hhead, Hsp. simpl. split; done.
  - simpl. rewrite <- Hb. by apply (IH st' (tk_end t)).
Qed.

(** *** [frontend_init] *)

(** X12.  When [frontend_init] returns after the driver has started,
    whatever the status, the handle array, [Names] and [Measured] have
    exactly one slot per channel.  If [Enabled] then has a slot for each
    channel too, a call of the loop from that state returns [CM_SUCCESS]
    whatever the channels answer. *)
Theorem frontend_init_ready
    (env : init_env) (st : State) (r : Z) (st' : State) :
  Z.land (ie_task_status env) CA_M_SUCCESS <> 0 ->
  frontend_init env st = Ok r st' ->
  let n := beamline_length (beamline st') in
  length (beamline_measured (beamline st')) = n /\
  option_map length (odb_names (odb st')) = Some n /\
  option_map length (odb_measured (odb st')) = Some n /\
  forall t en,
    odb_enabled (odb st') = Some en -> (n <= length en)%nat ->
    accepted (tk_replies t) n ->
    exists st'', epics_loop t st' = Ok CM_SUCCESS st''.
Proof.
  intros Htask Hrun.
  pose proof (frontend_init_handles _ _ _ _ Htask Hrun) as Hlen.
  pose proof (frontend_init_frame _ _ _ _ Hrun) as (Ho & _ & Hn & _).
  simpl. rewrite Hn, Hlen. split; [done|].
  split; [by rewrite Ho|].
  split; [by rewrite Ho; simpl; rewrite initial_measured_length|].
  intros t en Hen Hlenen Hacc. rewrite <- Hn in Hacc.
  pose proof (frontend_init_consistent _ _ _ _ _ Htask Hrun Hen Hlenen) as Hc.
  destruct (sweep_due (tk_start t) st') eqn:Hdue.
  - eexists. eapply epics_loop_sweeps; [done| |].
    + by destruct Hc as (_ & _ & _ & ? & _).
    + by apply consistent_samplable.
  - eexists. by apply epics_loop_idle.
Qed.

(** *** The start command *)

Lemma append_empty_r (s : string) : (s ++ EmptyString)%string = s.
Proof. induction s as [|c s IH]; simpl; [done|]. by rewrite IH. Qed.

Lemma substring_0_append (a b : string) (k : nat) :
  substring 0 (String.length a + k) (a ++ b)
  = (a ++ substring 0 k b)%string.
Proof.
  induction a as [|c a IH]; simpl; [done|]. by rewrite IH.
Qed.

Lemma substring_0_length (s : string) :
  forall i, (i <= String.length s)%nat ->
            String.length (substring 0 i s) = i.
Proof.
  induction s as [|c s IH]; intros i Hi; simpl in Hi.
  - by replace i with 0%nat by lia.
  - destruct i as [|i]; simpl; [done|]. rewrite IH; [done | lia].
Qed.

Lemma substring_length_bound (s : string) :
  forall n m, (String.length (substring n m s) <= String.length s - n)%nat.
Proof.
  induction s as [|c s IH]; intros n m.
  - by destruct n, m.
  - destruct n as [|n]; simpl.
    + destruct m as [|m]; simpl; [lia|].
      specialize (IH 0%nat m). lia.
    + apply IH.
Qed.

(** X14.  The start command is the source path up to the first occurrence
    of [epics_fe.cxx], followed by [build/epics_fe]: anything after the
    file name is dropped.  When the path does not contain the file name,
    the computation throws. *)
Theorem start_command_directory (file : string) :
  (forall i,
     string_find "epics_fe.cxx" file = Some i ->
     (i + 12 <= String.length file)%nat /\
     start_command file = Some (substring 0 i file ++ "build/epics_fe")%string)
  /\
  (string_find "epics_fe.cxx" file = None -> start_command file = None).
Proof.
  split.
  - intros i Hfind.
    assert (Hlen : (i + 12 <= String.length file)%nat).
    { unfold string_find in Hfind. apply index_correct1 in Hfind.
      pose proof (substring_length_bound file i
                    (String.length "epics_fe.cxx")) as Hb.
      rewrite Hfind in Hb. simpl in Hb. lia. }
    split; [done|].
    unfold start_command. rewrite Hfind.
    unfold string_replace, string_substr.
    destruct (Nat.leb_spec i (String.length file)) as [_|]; [|lia].
    simpl Nat.leb.
    set (dir := substring 0 i file).
    set (rest := substring (i + _) _ file).
    assert (Hdir : String.length dir = i)
      by (apply substring_0_length; lia).
    rewrite <- Hdir at 1. rewrite substring_0_append.
    replace (String.length "build/epics_fe")
      with (String.length "build/epics_fe" + 0)%nat by reflexivity.
    rewrite substring_0_append.
    assert (substring 0 0 rest = EmptyString) as -> by (by destruct rest).
    by rewrite append_empty_r.
  - intros Hfind. unfold start_command. by rewrite Hfind.
Qed.

End Further.

(** ** The further properties at work on concrete runs *)

Example start_command_source_path :
  start_command source_path = Some "/home/ucn/online/build/epics_fe" /\
  start_command "/home/ucn/online/epics_fe.cxx.orig"
    = Some "/home/ucn/online/build/epics_fe" /\
  start_command "/home/ucn/online/frontend.cxx" = None.
Proof. repeat split. Qed.

Lemma three_channels_connectable (env : init_env) :
  (forall j, (j < 3)%nat -> SEVCHK_aborts (cr_status (ie_connect env j)) = false) ->
  forall j, (j < beamline_length (beamline three_channels))%nat ->
            connectable three_channels env j.
Proof.
  intros Hs j Hj. simpl in Hj. unfold connectable. rewrite (Hs j Hj).
  destruct j as [|[|[|j]]]; [| | | lia]; vm_compute; eauto.
Defined.

Lemma three_channels_consistent :
  consistent three_channels [Float 11; Float 22; Float 33].
Proof. unfold consistent. simpl. repeat split; eauto. Defined.

Lemma one_silent_accepted : accepted (tk_replies one_silent) 3.
Proof. intros i _. simpl. destruct (decide (i = 2)%nat); reflexivity. Defined.

Lemma negative_interval_startable :
  startable (initial_state negative_interval_odb) all_connect.
Proof.
  intros j Hj. simpl in Hj.
  do 2 (destruct j as [|j]; [vm_compute; eauto|]). vm_compute in Hj. lia.
Defined.

Lemma frontend_init_driver_failure_witness :
  exists st',
    frontend_init driver_down (initial_state two_channel_odb)
      = Ok FE_ERR_HW st' /\
    log st' = log (initial_state two_channel_odb) ++
              [ca_task_initialize;
               cm_msg "epics_init" "Unable to initialize EPICS"] /\
    beamline_measured (beamline st')
      = beamline_measured (beamline (initial_state two_channel_odb)) /\
    beamline_length (beamline st')
      = channel_count (odb (initial_state two_channel_odb)) /\
    odb st' = set_odb_measured
                (Some (initial_measured (odb (initial_state two_channel_odb))))
                (connect_settings (odb (initial_state two_channel_odb))).
Proof.
  apply (frontend_init_driver_failure driver_down
           (initial_state two_channel_odb)).
  reflexivity.
Defined.

Lemma epics_init_all_connected_witness :
  exists st',
    epics_init all_connect three_channels =
      Ok (last_status three_channels all_connect (seq 0 3)
            (ie_task_status all_connect)) st' /\
    log st' = log three_channels ++
              ca_task_initialize ::
              flat_map (connect_events three_channels) (seq 0 3) /\
    length (beamline_measured (beamline st')) = 3%nat /\
    (forall j, (j < 3)%nat ->
       beamline_measured (beamline st') !! j
       = Some (if connects three_channels j
               then cr_chid (ie_connect all_connect j) else None)) /\
    odb st' = odb three_channels.
Proof.
  apply (epics_init_all_connected all_connect three_channels).
  - vm_compute. discriminate.
  - apply three_channels_connectable. reflexivity.
  - intros j _ _. vm_compute. discriminate.
Defined.

Lemma unconnected_never_read_witness :
  exists r st',
    epics_init all_connect three_channels = Ok r st' /\
    forall j, (j < 3)%nat -> connects three_channels j = false ->
      beamline_measured (beamline st') !! j = Some None /\
      forall (f : ODB -> ODB) (reply : get_reply),
        epics_get_measured reply j (set_odb f st')
        = Ok FE_SUCCESS (set_odb f st').
Proof.
  apply (unconnected_never_read all_connect three_channels).
  - vm_compute. discriminate.
  - apply three_channels_connectable. reflexivity.
Defined.

Lemma epics_loop_keeps_configuration_witness :
  beamline after_one_silent = beamline three_channels /\
  odb_update_interval (odb after_one_silent)
    = odb_update_interval (odb three_channels) /\
  odb_names (odb after_one_silent) = odb_names (odb three_channels) /\
  odb_ca_name (odb after_one_silent) = odb_ca_name (odb three_channels) /\
  odb_enabled (odb after_one_silent) = odb_enabled (odb three_channels) /\
  option_map length (odb_measured (odb after_one_silent))
  = option_map length (odb_measured (odb three_channels)).
Proof.
  apply (epics_loop_keeps_configuration one_silent three_channels 1
           after_one_silent).
  vm_compute. reflexivity.
Defined.

Lemma sweep_leaves_unread_slots_witness :
  exists st',
    epics_loop one_silent three_channels = Ok CM_SUCCESS st' /\
    forall j,
      (3 <= j)%nat \/
      beamline_measured (beamline three_channels) !! j = Some None \/
      odb_lookup odb_enabled j (odb three_channels) = Some false \/
      gr_pend (tk_replies one_silent j) = ECA_TIMEOUT ->
      odb_lookup odb_measured j (odb st')
      = [Float 11; Float 22; Float 33] !! j.
Proof.
  apply (sweep_leaves_unread_slots one_silent three_channels
           [Float 11; Float 22; Float 33]).
  - apply three_channels_consistent.
  - apply one_silent_accepted.
  - reflexivity.
Defined.

Lemma sweep_reports_timeouts_only_witness :
  exists st' evs,
    epics_loop one_silent three_channels = Ok CM_SUCCESS st' /\
    log st' = log three_channels ++ evs /\
    forall routine message,
      In (cm_msg routine message) evs <->
      exists j h name,
        (j < 3)%nat /\
        beamline_measured (beamline three_channels) !! j = Some (Some h) /\
        odb_lookup odb_enabled j (odb three_channels) = Some true /\
        odb_lookup odb_names j (odb three_channels) = Some name /\
        gr_pend (tk_replies one_silent j) = ECA_TIMEOUT /\
        routine = "epics_get_measured" /\
        message = ("Timeout on EPICS channel " ++ name)%string.
Proof.
  apply (sweep_reports_timeouts_only one_silent three_channels
           [Float 11; Float 22; Float 33]).
  - apply three_channels_consistent.
  - apply one_silent_accepted.
  - reflexivity.
Defined.

Lemma epics_read_only_reads_witness :
  three_channels = three_channels /\
  epics_read three_channels =
    Ok ([Bank "E000" 9 [11; 0; 0; 0; 22; 0; 0; 0; 33; 0; 0; 0]], 32)
       three_channels.
Proof.
  apply (epics_read_only_reads three_channels
           ([Bank "E000" 9 [11; 0; 0; 0; 22; 0; 0; 0; 33; 0; 0; 0]], 32)
           three_channels).
  reflexivity.
Defined.

Lemma readout_after_sweep_witness :
  exists st' data,
    epics_loop one_silent three_channels = Ok CM_SUCCESS st' /\
    epics_read st' =
      Ok ([Bank "E000" TID_FLOAT data], bk_size [Bank "E000" TID_FLOAT data])
         st' /\
    length data = (4 * 3)%nat /\
    forall j h,
      (j < 3)%nat ->
      beamline_measured (beamline three_channels) !! j = Some (Some h) ->
      odb_lookup odb_enabled j (odb three_channels) = Some true ->
      gr_pend (tk_replies one_silent j) <> ECA_TIMEOUT ->
      take 4 (drop (4 * j) data)
      = float_bytes (gr_value (tk_replies one_silent j)).
Proof.
  apply (readout_after_sweep one_silent three_channels
           [Float 11; Float 22; Float 33]).
  - apply three_channels_consistent.
  - apply one_silent_accepted.
  - reflexivity.
Defined.

Lemma sweep_due_exact_witness :
  sweep_due (3 * 2 ^ 32 - 400 + 1500)
            (set_last_time_measured (DWORD (3 * 2 ^ 32 - 400)) three_channels)
  = (beamline_updateInterval
       (beamline (set_last_time_measured (DWORD (3 * 2 ^ 32 - 400))
                    three_channels)) <? 1500).
Proof.
  apply (sweep_due_exact
           (set_last_time_measured (DWORD (3 * 2 ^ 32 - 400)) three_channels)
           (3 * 2 ^ 32 - 400) 1500).
  - reflexivity.
  - lia.
Defined.

Lemma negative_update_interval_witness :
  exists r st',
    frontend_init all_connect (initial_state negative_interval_odb)
      = Ok r st' /\
    beamline_updateInterval (beamline st') = 2 ^ 32 + -1 /\
    (-1 = -1 ->
     forall time s, beamline s = beamline st' -> sweep_due time s = false).
Proof.
  apply (negative_update_interval all_connect
           (initial_state negative_interval_odb) (-1)).
  - apply negative_interval_startable.
  - reflexivity.
  - lia.
Defined.

Lemma sweeps_rested_witness :
  rested (beamline_updateInterval (beamline three_channels))
         (poll_spans three_ticks three_channels) /\
  map fst (poll_spans three_ticks three_channels)
  = poll three_ticks three_channels.
Proof.
  apply (sweeps_rested three_ticks three_channels 0).
  simpl. lia.
Defined.

Lemma frontend_init_ready_witness :
  let n := beamline_length (beamline started) in
  length (beamline_measured (beamline started)) = n /\
  option_map length (odb_names (odb started)) = Some n /\
  option_map length (odb_measured (odb started)) = Some n /\
  forall t en,
    odb_enabled (odb started) = Some en -> (n <= length en)%nat ->
    accepted (tk_replies t) n ->
    exists st'', epics_loop t started = Ok CM_SUCCESS st''.
Proof.
  apply (frontend_init_ready all_connect (initial_state two_channel_odb) 1
           started).
  - vm_compute. discriminate.
  - vm_compute. reflexivity.
Defined.
